(** * Expense tracker: the analytics pipeline of [expense_tracker.py]

    A shallow embedding of the data-frame pipeline of the script: coercion and
    sorting of the uploaded rows, the sidebar filters, the daily aggregate, the
    seven-day moving average, the weekday/month heat map, the z-score outlier
    rule and the category summary.

    Conventions of the embedding.
    - A data frame is the list of its rows, in index order.  A column that the
      uploaded file does not have is a column of nulls.
    - [NaT] and [NaN] are [None].
    - Timestamps are [datetime64[ns]] values: integers counting nanoseconds
      since 1970-01-01T00:00.
    - Amounts are exact rationals; the rounding of binary floating point is
      not part of the model.  The standard deviation, a square root, is a
      real number.
    - The script stops with [st.stop()] in three places; a function that can
      stop returns an [Outcome]. *)

From Stdlib Require Import ZArith QArith Qreals Reals List String Bool Lia Lra
  Permutation Sorting.Sorted.
From Stdlib Require OrderedTypeEx Lqa.
Import ListNotations.

Local Open Scope Z_scope.

(** ** Calendar: what [day_name] and [month_name] compute on a timestamp *)

Abbreviation Timestamp := Z (only parsing).

Definition ns_per_day : Z := 86400000000000.

Definition days_of (t : Timestamp) : Z := t / ns_per_day.

(** Proleptic Gregorian calendar: day count since 1970-01-01 to
    (year, month, day) and back. *)
Definition civil_of_days (z : Z) : Z * Z * Z :=
  let z' := z + 719468 in
  let era := z' / 146097 in
  let doe := z' - era * 146097 in
  let yoe := (doe - doe / 1460 + doe / 36524 - doe / 146096) / 365 in
  let doy := doe - (365 * yoe + yoe / 4 - yoe / 100) in
  let mp := (5 * doy + 2) / 153 in
  let d := doy - (153 * mp + 2) / 5 + 1 in
  let m := if mp <? 10 then mp + 3 else mp - 9 in
  let y := yoe + era * 400 in
  (if m <=? 2 then y + 1 else y, m, d).

Definition days_of_civil (y m d : Z) : Z :=
  let y' := if m <=? 2 then y - 1 else y in
  let era := y' / 400 in
  let yoe := y' - era * 400 in
  let doy := (153 * (if 2 <? m then m - 3 else m + 9) + 2) / 5 + d - 1 in
  let doe := yoe * 365 + yoe / 4 - yoe / 100 + doy in
  era * 146097 + doe - 719468.

(** Midnight of a calendar day, as [pd.to_datetime] gives for a date. *)
Definition midnight (day : Z) : Timestamp := day * ns_per_day.

Definition ymd (y m d : Z) : Timestamp := midnight (days_of_civil y m d).

(** The index list of line 193, which is also the order of [day_name]. *)
Definition weekday_names : list string :=
  ["Monday"; "Tuesday"; "Wednesday"; "Thursday"; "Friday"; "Saturday";
   "Sunday"]%string.

Definition month_names : list string :=
  ["January"; "February"; "March"; "April"; "May"; "June"; "July"; "August";
   "September"; "October"; "November"; "December"]%string.

(** 1970-01-01 was a Thursday. *)
Definition day_name (t : Timestamp) : string :=
  nth (Z.to_nat ((days_of t + 3) mod 7)) weekday_names EmptyString.

Definition month_of (t : Timestamp) : Z :=
  let '(_, m, _) := civil_of_days (days_of t) in m.

Definition month_name (t : Timestamp) : string :=
  nth (Z.to_nat (month_of t - 1)) month_names EmptyString.

(** ** Rows *)

(** A cell of the uploaded file, seen through the coercion that will be
    applied to it: it holds a value the parser accepts, text it rejects, or
    nothing. *)
Inductive RawCell (A : Type) : Type :=
| Parsed (a : A)
| Unparsable (s : string)
| Blank.

Arguments Parsed {A} a.
Arguments Unparsable {A} s.
Arguments Blank {A}.

Record RawRow : Type := mkRawRow {
  raw_date : RawCell Timestamp;
  raw_user_id : option string;
  raw_expense_type : option string;
  raw_vendor : option string;
  raw_amount : RawCell Q
}.

(** A row of [df] after lines 56-78.  [weekday] and [month] are the derived
    columns; the [week] column is written at line 77 and never read. *)
Record Row : Type := mkRow {
  date : option Timestamp;
  user_id : option string;
  expense_type : option string;
  vendor : option string;
  amount : option Q;
  weekday : option string;
  month : option string
}.

(** [errors="coerce"]: what does not parse becomes null. *)
Definition coerce {A : Type} (c : RawCell A) : option A :=
  match c with
  | Parsed a => Some a
  | Unparsable _ => None
  | Blank => None
  end.

Definition to_datetime : RawCell Timestamp -> option Timestamp := coerce.
Definition to_numeric : RawCell Q -> option Q := coerce.

(** Lines 56-67: the two coercions, row by row. *)
Definition coerce_row (r : RawRow) : Row :=
  {| date := to_datetime (raw_date r);
     user_id := raw_user_id r;
     expense_type := raw_expense_type r;
     vendor := raw_vendor r;
     amount := to_numeric (raw_amount r);
     weekday := None;
     month := None |}.

(** Order of [sort_values("date")]: ascending, nulls last. *)
Definition date_leb (a b : option Timestamp) : bool :=
  match a, b with
  | Some x, Some y => x <=? y
  | Some _, None => true
  | None, Some _ => false
  | None, None => true
  end.

Definition date_order (a b : Row) : Prop := date_leb (date a) (date b) = true.

Fixpoint insert_by_date (r : Row) (l : list Row) : list Row :=
  match l with
  | [] => [r]
  | h :: t =>
      if date_leb (date r) (date h) then r :: l else h :: insert_by_date r t
  end.

(** Line 73.  The order among rows of equal date is the one of the input
    here; pandas leaves it open. *)
Definition sort_values_date (df : list Row) : list Row :=
  fold_right insert_by_date [] df.

(** Lines 76-78. *)
Definition add_derived (r : Row) : Row :=
  {| date := date r;
     user_id := user_id r;
     expense_type := expense_type r;
     vendor := vendor r;
     amount := amount r;
     weekday := option_map day_name (date r);
     month := option_map month_name (date r) |}.

(** Lines 56-78 for a file that has both required columns. *)
Definition normalize (raw : list RawRow) : list Row :=
  map add_derived (sort_values_date (map coerce_row raw)).

(** The places where the script calls [st.stop()]. *)
Inductive Halt : Type :=
| MissingDateColumn      (* lines 58-60 *)
| MissingAmountColumn    (* lines 65-67 *)
| NoDataAfterFilters.    (* lines 129-131 *)

Inductive Outcome (A : Type) : Type :=
| Stopped (h : Halt)
| Ran (a : A).

Arguments Stopped {A} h.
Arguments Ran {A} a.

(** Lines 56-73 with the two column checks. *)
Definition load (has_date has_amount : bool) (raw : list RawRow)
  : Outcome (list Row) :=
  if negb has_date then Stopped MissingDateColumn
  else if negb has_amount then Stopped MissingAmountColumn
  else Ran (normalize raw).

(** ** Sidebar filters (lines 80-131) *)

(** [Series.min()] and [Series.max()] skip nulls; a column of nulls gives
    null. *)
Definition min_opt (a : option Timestamp) (t : Timestamp) : option Timestamp :=
  match a with
  | Some x => Some (Z.min x t)
  | None => Some t
  end.

Definition max_opt (a : option Timestamp) (t : Timestamp) : option Timestamp :=
  match a with
  | Some x => Some (Z.max x t)
  | None => Some t
  end.

Fixpoint dropna {A : Type} (l : list (option A)) : list A :=
  match l with
  | [] => []
  | Some a :: t => a :: dropna t
  | None :: t => dropna t
  end.

Definition min_date (df : list Row) : option Timestamp :=
  fold_left min_opt (dropna (map date df)) None.

Definition max_date (df : list Row) : option Timestamp :=
  fold_left max_opt (dropna (map date df)) None.

(** What the date widget hands back: a sequence of days or a single day. *)
Inductive DateInputValue : Type :=
| DateSeq (days : list Z)
| DateOne (day : Z).

(** The default value given to the widget at line 83. *)
Definition default_date_input (df : list Row) : option DateInputValue :=
  match min_date df, max_date df with
  | Some lo, Some hi => Some (DateSeq [days_of lo; days_of hi])
  | _, _ => None
  end.

(** Lines 85-101.  Converting a day to a timestamp does not raise, so the
    handler of lines 99-101 has no case here. *)
Definition resolve_range (df : list Row) (v : DateInputValue)
  : option Timestamp * option Timestamp :=
  match v with
  | DateSeq (d0 :: d1 :: _) => (Some (midnight d0), Some (midnight d1))
  | DateSeq [d0] => (Some (midnight d0), Some (midnight d0))
  | DateSeq [] => (min_date df, max_date df)
  | DateOne d => (Some (midnight d), Some (midnight d))
  end.

(** [unique()]: first occurrences, in order of appearance. *)
Fixpoint unique (seen l : list string) : list string :=
  match l with
  | [] => []
  | s :: t =>
      if existsb (String.eqb s) seen then unique seen t
      else s :: unique (s :: seen) t
  end.

(** Line 104 and line 110. *)
Definition expense_types (df : list Row) : list string :=
  unique [] (dropna (map expense_type df)).

Definition user_list (df : list Row) : list string :=
  unique [] (dropna (map user_id df)).

(** Comparison of a date cell with a bound: false as soon as one side is
    null. *)
Definition ts_ge (d bound : option Timestamp) : bool :=
  match d, bound with
  | Some x, Some b => b <=? x
  | _, _ => false
  end.

Definition ts_le (d bound : option Timestamp) : bool :=
  match d, bound with
  | Some x, Some b => x <=? b
  | _, _ => false
  end.

(** Line 118.  The comparison of timestamps does not raise, so the handler of
    lines 119-121 has no case here. *)
Definition filter_date (start_date end_date : option Timestamp)
  (df : list Row) : list Row :=
  filter (fun r => ts_ge (date r) start_date && ts_le (date r) end_date) df.

(** [isin]: a null label belongs to no selection. *)
Definition isin (sel : list string) (v : option string) : bool :=
  match v with
  | Some s => existsb (String.eqb s) sel
  | None => false
  end.

Definition nonempty {A : Type} (l : list A) : bool :=
  match l with
  | [] => false
  | _ :: _ => true
  end.

(** Lines 123-124: both lists have to be non-empty for the filter to run. *)
Definition filter_types (types selected_types : list string)
  (df : list Row) : list Row :=
  if nonempty types && nonempty selected_types
  then filter (fun r => isin selected_types (expense_type r)) df
  else df.

Definition eq_label (v : option string) (u : string) : bool :=
  match v with
  | Some s => String.eqb s u
  | None => false
  end.

(** Lines 126-127.  [user_search] is [None] when there is no user column; an
    empty string is falsy like [None]. *)
Definition filter_user (user_search : option string) (df : list Row)
  : list Row :=
  match user_search with
  | Some u =>
      if negb (String.eqb u EmptyString) && negb (String.eqb u "All")
      then filter (fun r => eq_label (user_id r) u) df
      else df
  | None => df
  end.

Record FilterSpec : Type := mkFilterSpec {
  start_date : option Timestamp;
  end_date : option Timestamp;
  selected_types : list string;
  user_search : option string
}.

(** Lines 116-127. *)
Definition apply_filters (df : list Row) (f : FilterSpec) : list Row :=
  filter_user (user_search f)
    (filter_types (expense_types df) (selected_types f)
       (filter_date (start_date f) (end_date f) df)).

(** The same without the date-range step. *)
Definition apply_filters_no_date (df : list Row) (f : FilterSpec) : list Row :=
  filter_user (user_search f)
    (filter_types (expense_types df) (selected_types f) df).

(** Lines 116-131. *)
Definition filtered (df : list Row) (f : FilterSpec) : Outcome (list Row) :=
  match apply_filters df f with
  | [] => Stopped NoDataAfterFilters
  | r :: rest => Ran (r :: rest)
  end.

(** The filters as the sidebar leaves them when nothing is touched: the
    default range, every type selected, user ["All"]. *)
Definition default_filters (df : list Row) : option FilterSpec :=
  match default_date_input df with
  | Some v =>
      let '(s, e) := resolve_range df v in
      Some {| start_date := s; end_date := e;
              selected_types := expense_types df;
              user_search := Some "All"%string |}
  | None => None
  end.

(** ** Group-by sums (lines 140, 168, 193, 236) *)

(** [sum()] of a group skips null amounts and starts from zero. *)
Definition add_amount (s : Q) (a : option Q) : Q :=
  match a with
  | Some q => (s + q)%Q
  | None => s
  end.

Definition nansum (l : list (option Q)) : Q := fold_left add_amount l 0%Q.

Definition or_zero (o : option Q) : Q :=
  match o with
  | Some s => s
  | None => 0%Q
  end.

Section GroupBy.
Context {K : Type} (cmp : K -> K -> comparison).

Definition key_lt (a b : K) : Prop := cmp a b = Lt.

(** The running totals, one entry per key seen so far, kept in ascending
    key order ([sort=True]). *)
Fixpoint upsert (k : K) (a : option Q) (acc : list (K * Q))
  : list (K * Q) :=
  match acc with
  | [] => [(k, add_amount 0%Q a)]
  | (k', s) :: rest =>
      match cmp k k' with
      | Lt => (k, add_amount 0%Q a) :: acc
      | Eq => (k', add_amount s a) :: rest
      | Gt => (k', s) :: upsert k a rest
      end
  end.

(** [groupby(key)["amount"].sum()]: rows whose key is null belong to no
    group ([dropna=True]). *)
Definition group_step (key : Row -> option K) (acc : list (K * Q))
  (r : Row) : list (K * Q) :=
  match key r with
  | Some k => upsert k (amount r) acc
  | None => acc
  end.

Definition groupby_sum (key : Row -> option K) (df : list Row)
  : list (K * Q) :=
  fold_left (group_step key) df [].

(** The rows of one group. *)
Definition has_key (key : Row -> option K) (k : K) (r : Row) : bool :=
  match key r with
  | Some k' => match cmp k' k with Eq => true | _ => false end
  | None => false
  end.

(** Insertion of a label in an ascending list without repetition. *)
Fixpoint insert_key (k : K) (l : list K) : list K :=
  match l with
  | [] => [k]
  | k' :: rest =>
      match cmp k k' with
      | Lt => k :: l
      | Eq => l
      | Gt => k' :: insert_key k rest
      end
  end.

Definition sorted_labels (l : list K) : list K :=
  fold_left (fun acc k => insert_key k acc) l [].

Fixpoint lookup (k : K) (l : list (K * Q)) : option Q :=
  match l with
  | [] => None
  | (k', v) :: rest =>
      match cmp k k' with
      | Eq => Some v
      | _ => lookup k rest
      end
  end.
End GroupBy.

(** Line 140. *)
Definition daily_group (df : list Row) : list (Timestamp * Q) :=
  groupby_sum Z.compare date df.

Fixpoint insert_daily (p : Timestamp * Q) (l : list (Timestamp * Q))
  : list (Timestamp * Q) :=
  match l with
  | [] => [p]
  | h :: t => if fst p <=? fst h then p :: l else h :: insert_daily p t
  end.

(** Line 168: the group-by, then [reset_index().sort_values("date")]. *)
Definition daily (df : list Row) : list (Timestamp * Q) :=
  fold_right insert_daily [] (groupby_sum Z.compare date df).

(** Line 236. *)
Definition summary (df : list Row) : list (string * Q) :=
  groupby_sum String.compare expense_type df.

(** ** Seven-day moving average (line 169) *)

Definition sum_q (l : list Q) : Q := fold_left Qplus l 0%Q.

(** [Series.mean()]: null on an empty series. *)
Definition mean (l : list Q) : option Q :=
  match l with
  | [] => None
  | _ :: _ => Some (sum_q l / inject_Z (Z.of_nat (List.length l)))%Q
  end.

Definition lastn {A : Type} (n : nat) (l : list A) : list A :=
  skipn (List.length l - n) l.

(** [rolling(window, min_periods=1).mean()]: the window slides over the
    series keeping the last [window] observations; a value is produced as soon
    as the window holds one. *)
Fixpoint rolling_mean_from (window : nat) (buf l : list Q)
  : list (option Q) :=
  match l with
  | [] => []
  | x :: rest =>
      let buf' := lastn window (buf ++ [x]) in
      mean buf' :: rolling_mean_from window buf' rest
  end.

Definition rolling_mean (window : nat) (l : list Q) : list (option Q) :=
  rolling_mean_from window [] l.

Definition seven_day_avg (d : list (Timestamp * Q)) : list (option Q) :=
  rolling_mean 7 (map snd d).

(** ** Outlier rule (lines 217-219) *)

(** [var(ddof=0)]: mean of the squared deviations. *)
Definition variance0 (l : list Q) : option Q :=
  match mean l with
  | Some m =>
      Some (sum_q (map (fun x => (x - m) * (x - m)) l)
            / inject_Z (Z.of_nat (List.length l)))%Q
  | None => None
  end.

(** [std(ddof=0)]. *)
Definition std0 (l : list Q) : option R :=
  option_map (fun v => sqrt (Q2R v)) (variance0 l).

(** The divisor of line 218: [std if std != 0 else nan]. *)
Definition z_divisor (l : list Q) : option R :=
  match std0 l with
  | Some s => if Req_dec_T s 0%R then None else Some s
  | None => None
  end.

(** One entry of the [z] column; null as soon as an operand is null. *)
Definition z_score (l : list Q) (x : Q) : option R :=
  match mean l, z_divisor l with
  | Some m, Some s => Some (Q2R (x - m) / s)%R
  | _, _ => None
  end.

Definition z_scores (l : list Q) : list (option R) := map (z_score l) l.

(** [z >= 2] on a cell: false on null. *)
Definition ge_2 (z : option R) : bool :=
  match z with
  | Some v => if Rle_dec 2%R v then true else false
  | None => false
  end.

Definition outlier_mask (l : list Q) : list bool := map ge_2 (z_scores l).



(** Line 219 on the daily frame. *)
Definition outliers (d : list (Timestamp * Q)) : list (Timestamp * Q) :=
  map fst (filter snd (combine d (outlier_mask (map snd d)))).

(** ** Heat map (lines 193-199) *)

Record Table : Type := mkTable {
  index : list string;
  columns : list string;
  cells : list (list (option Q))
}.

Definition weekday_month (r : Row) : option (string * string) :=
  match weekday r, month r with
  | Some w, Some m => Some (w, m)
  | _, _ => None
  end.

Definition compare_pair (a b : string * string) : comparison :=
  match String.compare (fst a) (fst b) with
  | Eq => String.compare (snd a) (snd b)
  | c => c
  end.

(** [pivot_table(index="weekday", columns="month", values="amount",
    aggfunc="sum")]: one row per weekday present, one column per month
    present, both in ascending label order; a cell without a record is
    null. *)
Definition pivot_table (df : list Row) : Table :=
  let g := groupby_sum compare_pair weekday_month df in
  let idx := sorted_labels String.compare (map (fun e => fst (fst e)) g) in
  let cols := sorted_labels String.compare (map (fun e => snd (fst e)) g) in
  {| index := idx;
     columns := cols;
     cells := map (fun w => map (fun m => lookup compare_pair (w, m) g) cols)
                idx |}.

Fixpoint row_of (w : string) (idx : list string)
  (rows : list (list (option Q))) : option (list (option Q)) :=
  match idx, rows with
  | i :: idx', r :: rows' => if String.eqb w i then Some r else row_of w idx' rows'
  | _, _ => None
  end.

(** [reindex(index=labels)]: rows in the order of [labels]; a label the
    table does not have gives a row of nulls. *)
Definition reindex (labels : list string) (t : Table) : Table :=
  {| index := labels;
     columns := columns t;
     cells := map (fun w =>
                     match row_of w (index t) (cells t) with
                     | Some r => r
                     | None => map (fun _ => None) (columns t)
                     end)
                labels |}.

(** Line 193. *)
Definition heatmap (df : list Row) : Table :=
  reindex weekday_names (pivot_table df).

Definition isnull {A : Type} (c : option A) : bool :=
  match c with
  | Some _ => false
  | None => true
  end.

(** [isnull().all().all()]. *)
Definition all_null (t : Table) : bool := forallb (forallb isnull) (cells t).



Definition fillna (v : Q) (t : Table) : list (list Q) :=
  map (map (fun c => match c with Some q => q | None => v end)) (cells t).

Inductive HeatmapView : Type :=
| NoHeatmapData                       (* line 195 *)
| HeatmapImage (m : list (list Q)).   (* line 197 *)

(** Lines 194-199. *)
Definition heatmap_view (df : list Row) : HeatmapView :=
  let h := heatmap df in
  if all_null h then NoHeatmapData else HeatmapImage (fillna 0%Q h).

(** ** The script from the upload to the aggregates *)

Record Views : Type := mkViews {
  v_filtered : list Row;
  v_daily : list (Timestamp * Q);
  v_avg : list (option Q);
  v_heatmap : HeatmapView;
  v_outliers : list (Timestamp * Q);
  v_summary : list (string * Q)
}.

Definition views (df_filtered : list Row) : Views :=
  let d := daily df_filtered in
  {| v_filtered := df_filtered;
     v_daily := d;
     v_avg := seven_day_avg d;
     v_heatmap := heatmap_view df_filtered;
     v_outliers := outliers d;
     v_summary := summary df_filtered |}.

(** Lines 56-265 for given sidebar choices. *)
Definition run_with (raw : list RawRow) (f : FilterSpec) : Outcome Views :=
  match filtered (normalize raw) f with
  | Stopped h => Stopped h
  | Ran df_filtered => Ran (views df_filtered)
  end.

(** The same with the sidebar left as it comes up. *)
Definition run_default (raw : list RawRow) : option (Outcome Views) :=
  option_map (run_with raw) (default_filters (normalize raw)).

(** ** Reference definitions the claims are stated against *)

(** The amounts at positions [max 0 (i - 6)] to [i], both included. *)
Definition window_at (l : list Q) (i : nat) : list Q :=
  firstn (i + 1 - (i - 6)) (skipn (i - 6) l).

(** Arithmetic mean: the sum divided by the number of terms. *)
Definition arithmetic_mean (l : list Q) : Q :=
  (fold_right Qplus 0 l / inject_Z (Z.of_nat (List.length l)))%Q.

(** The rule [z >= 2] without the square root: the deviation is not negative
    and its square is at least four times a non-zero variance. *)
Definition is_outlier_exact (l : list Q) (x : Q) : bool :=
  match mean l, variance0 l with
  | Some m, Some v =>
      negb (Qeq_bool v 0) && Qle_bool 0 (x - m)
      && Qle_bool (4 * v) ((x - m) * (x - m))
  | _, _ => false
  end.


(** ** Inputs used in the examples *)

Definition raw_row (d : RawCell Timestamp) (a : RawCell Q)
  (ty : option string) : RawRow :=
  {| raw_date := d; raw_user_id := None; raw_expense_type := ty;
     raw_vendor := None; raw_amount := a |}.

Definition raw_three : list RawRow :=
  [ raw_row (Parsed (ymd 2024 1 1)) (Parsed 100%Q) (Some "food"%string);
    raw_row (Parsed (ymd 2024 1 1)) (Parsed 50%Q) (Some "food"%string);
    raw_row (Parsed (ymd 2024 1 2)) (Parsed 10%Q) (Some "travel"%string) ].

Definition raw_with_bad_cells : list RawRow :=
  [ raw_row (Unparsable "soon") (Parsed 5%Q) (Some "food"%string);
    raw_row (Parsed (ymd 2024 1 1)) (Unparsable "abc") (Some "food"%string) ].

(** The sidebar with the range picked backwards on the three-row example. *)
Definition inverted_spec : FilterSpec :=
  {| start_date := Some (ymd 2024 1 2);
     end_date := Some (ymd 2024 1 1);
     selected_types := ["food"; "travel"]%string;
     user_search := Some "All"%string |}.


(** ** Column check (lines 48-53) *)

Definition expected_cols : list string :=
  ["date"; "user_id"; "expense_type"; "vendor"; "amount"]%string.

Definition has_column (columns : list string) (c : string) : bool :=
  existsb (String.eqb c) columns.

(** Line 50. *)
Definition missing (columns : list string) : list string :=
  filter (fun c => negb (has_column columns c)) expected_cols.

(** Lines 48-73 on the column names of the uploaded file. *)
Definition load_file (columns : list string) (raw : list RawRow)
  : Outcome (list Row) :=
  load (has_column columns "date") (has_column columns "amount") raw.

(** ** Key figures (lines 139-147) *)

(** Line 139. *)
Definition total_spend (df : list Row) : Q := nansum (map amount df).

(** Line 141: the mean of the daily totals, 0 when there is no day. *)
Definition avg_daily (df : list Row) : Q :=
  match mean (map snd (daily_group df)) with
  | Some m => m
  | None => 0%Q
  end.

Definition Qmax_b (a b : Q) : Q := if Qle_bool a b then b else a.

(** [Series.max()]. *)
Definition series_max (l : list Q) : option Q :=
  match l with
  | [] => None
  | x :: t => Some (fold_left Qmax_b t x)
  end.

(** [Series.idxmax()]: the label of the first occurrence of the maximum. *)
Fixpoint idxmax_from (best : Timestamp * Q) (l : list (Timestamp * Q))
  : Timestamp :=
  match l with
  | [] => fst best
  | p :: t =>
      if Qle_bool (snd p) (snd best) then idxmax_from best t
      else idxmax_from p t
  end.

Definition idxmax (l : list (Timestamp * Q)) : option Timestamp :=
  match l with
  | [] => None
  | p :: t => Some (idxmax_from p t)
  end.

(** Lines 142-147. *)
Definition best_day (df : list Row) : option Timestamp :=
  idxmax (daily_group df).

Definition best_day_amt (df : list Row) : Q :=
  match series_max (map snd (daily_group df)) with
  | Some m => m
  | None => 0%Q
  end.

(** ** Trend by expense type (line 183) *)

Definition date_and_type (r : Row) : option (Timestamp * string) :=
  match date r, expense_type r with
  | Some d, Some ty => Some (d, ty)
  | _, _ => None
  end.

Definition compare_date_type (a b : Timestamp * string) : comparison :=
  match fst a ?= fst b with
  | Eq => String.compare (snd a) (snd b)
  | c => c
  end.

Definition et_daily (df : list Row) : list (Timestamp * string * Q) :=
  groupby_sum compare_date_type date_and_type df.

(** ** User table (line 248) *)

Fixpoint insert_desc (p : string * Q) (l : list (string * Q))
  : list (string * Q) :=
  match l with
  | [] => [p]
  | h :: t =>
      if Qle_bool (snd h) (snd p) then p :: l else h :: insert_desc p t
  end.

(** [groupby("user_id")["amount"].sum()], then
    [sort_values("amount", ascending=False)].  The order among users of
    equal sum is the one of the labels here; pandas leaves it open. *)
Definition user_sum (df : list Row) : list (string * Q) :=
  fold_right insert_desc [] (groupby_sum String.compare user_id df).

(** Lexicographic comparison of pairs; [compare_pair] and
    [compare_date_type] are instances of it. *)
Definition lex_compare {A B : Type} (ca : A -> A -> comparison)
  (cb : B -> B -> comparison) (x y : A * B) : comparison :=
  match ca (fst x) (fst y) with
  | Eq => cb (snd x) (snd y)
  | c => c
  end.

(** ** Reading a table by labels *)

Fixpoint at_label {A : Type} (w : string) (labels : list string)
  (vals : list A) : option A :=
  match labels, vals with
  | i :: labels', v :: vals' =>
      if String.eqb w i then Some v else at_label w labels' vals'
  | _, _ => None
  end.

(** The cell of row [w] and column [m]; [None] when the cell is null or a
    label is not in the table. *)
Definition table_cell (t : Table) (w m : string) : option Q :=
  match row_of w (index t) (cells t) with
  | Some row =>
      match at_label m (columns t) row with
      | Some c => c
      | None => None
      end
  | None => None
  end.

(** The rows of one day and one expense type. *)
Definition on_day_type (d : Timestamp) (ty : string) (r : Row) : bool :=
  match date r with
  | Some x => x =? d
  | None => false
  end && eq_label (expense_type r) ty.

(** The rows of one weekday and one month. *)
Definition on_weekday_month (w m : string) (r : Row) : bool :=
  eq_label (weekday r) w && eq_label (month r) m.

(** Number of days flagged by line 219. *)
Definition count_outliers (l : list Q) : nat :=
  List.length (filter (fun b : bool => b) (outlier_mask l)).

(** Two rows, the first without an expense type. *)
Definition raw_untyped : list RawRow :=
  [ raw_row (Parsed (ymd 2024 1 1)) (Parsed 5%Q) None;
    raw_row (Parsed (ymd 2024 1 2)) (Parsed 7%Q) (Some "food"%string) ].

(** Two rows, the second stamped at ten in the morning. *)
Definition raw_timed : list RawRow :=
  [ raw_row (Parsed (ymd 2024 1 1)) (Parsed 1%Q) None;
    raw_row (Parsed (ymd 2024 1 2 + 36000000000000)) (Parsed 2%Q) None ].

(** Three rows of two users. *)
Definition raw_users : list RawRow :=
  [ {| raw_date := Parsed (ymd 2024 1 1); raw_user_id := Some "u2"%string;
       raw_expense_type := None; raw_vendor := None;
       raw_amount := Parsed 5%Q |};
    {| raw_date := Parsed (ymd 2024 1 2); raw_user_id := Some "u1"%string;
       raw_expense_type := None; raw_vendor := None;
       raw_amount := Parsed 3%Q |};
    {| raw_date := Parsed (ymd 2024 1 3); raw_user_id := Some "u2"%string;
       raw_expense_type := None; raw_vendor := None;
       raw_amount := Parsed 7%Q |} ].

(** ** Definitions used to state further properties *)

(** What the user filter of lines 126-127 lets through. *)
Definition user_passes (u : option string) (r : Row) : Prop :=
  match u with
  | Some s => s = EmptyString \/ s = "All"%string \/ user_id r = Some s
  | None => True
  end.

(** Sum of the totals of a group-by result. *)
Definition sum_values {K : Type} (l : list (K * Q)) : Q :=
  fold_right Qplus 0%Q (map snd l).

(** Order of the user table: larger sums first. *)
Definition amount_desc (a b : string * Q) : Prop := (snd b <= snd a)%Q.

(** Sums, squares and counts used to state the bound on outliers. *)
Definition sumf (l : list Q) : Q := fold_right Qplus 0%Q l.

Definition sq (d : Q) : Q := (d * d)%Q.

Definition qlen {A : Type} (l : list A) : Q :=
  inject_Z (Z.of_nat (List.length l)).

(** A deviation from the mean that is at least twice the standard
    deviation, for a variance [v]. *)
Definition spike (v d : Q) : bool :=
  Qle_bool 0 d && Qle_bool (4 * v) (d * d).

(** The value of a pivot cell for the amounts of its records: null without
    records. *)
Definition cell_sum (l : list (option Q)) : option Q :=
  match l with
  | [] => None
  | _ :: _ => Some (nansum l)
  end.

(** * Properties *)

(** ** Calendar checks *)

Example day_name_2024_01_01 : day_name (ymd 2024 1 1) = "Monday"%string.
Proof. reflexivity. Qed.

Example calendar_samples :
  month_name (ymd 2024 2 29) = "February"%string
  /\ civil_of_days (days_of (ymd 2024 2 29)) = (2024, 2, 29)
  /\ civil_of_days (days_of (ymd 1999 12 31)) = (1999, 12, 31)
  /\ day_name (ymd 1970 1 1) = "Thursday"%string
  /\ day_name (ymd 1969 12 28) = "Sunday"%string
  /\ ymd 1970 1 1 = 0.
Proof. repeat split; reflexivity. Qed.

(** The two calendar conversions agree on every day of the 40 years that
    start on 2000-01-01, and months and days stay in range. *)
Example calendar_round_trip :
  days_of_civil 2000 1 1 = 10957
  /\ Pos.iter
       (fun '(z, ok) =>
          let '(y, m, d) := civil_of_days z in
          (z + 1,
           ok && (days_of_civil y m d =? z) && (1 <=? m) && (m <=? 12)
           && (1 <=? d) && (d <=? 31)))
       (10957, true) 14610
     = (days_of_civil 2040 1 1, true).
Proof. split; vm_compute; reflexivity. Qed.

Lemma day_name_in_weekday_names (t : Timestamp) :
  In (day_name t) weekday_names.
Proof.
  unfold day_name.
  assert (H : 0 <= (days_of t + 3) mod 7 < 7) by (apply Z.mod_pos_bound; lia).
  apply nth_In. simpl. lia.
Qed.

(** ** Normalization *)

Lemma insert_by_date_perm (r : Row) (l : list Row) :
  Permutation (insert_by_date r l) (r :: l).
Proof.
  induction l as [|h t IH]; simpl.
  - apply Permutation_refl.
  - destruct (date_leb (date r) (date h)).
    + apply Permutation_refl.
    + eapply perm_trans; [apply perm_skip, IH | apply perm_swap].
Qed.

Lemma sort_values_date_perm (df : list Row) :
  Permutation (sort_values_date df) df.
Proof.
  induction df as [|r t IH]; simpl.
  - constructor.
  - eapply perm_trans; [apply insert_by_date_perm | apply perm_skip, IH].
Qed.

Lemma date_leb_total (a b : option Timestamp) :
  date_leb a b = false -> date_leb b a = true.
Proof.
  destruct a, b; simpl; intros H; try reflexivity; try discriminate.
  apply Z.leb_le. apply Z.leb_gt in H. lia.
Qed.

Lemma insert_by_date_sorted (r : Row) (l : list Row) :
  Sorted date_order l -> Sorted date_order (insert_by_date r l).
Proof.
  induction l as [|h t IH]; simpl; intros Hs.
  - repeat constructor.
  - destruct (date_leb (date r) (date h)) eqn:E.
    + constructor; [exact Hs | constructor; exact E].
    + inversion Hs as [|? ? Hs' Hh]; subst.
      constructor; [apply IH, Hs'|].
      destruct t as [|h' t']; simpl.
      * constructor. apply date_leb_total, E.
      * destruct (date_leb (date r) (date h')).
        -- constructor. apply date_leb_total, E.
        -- inversion Hh; subst. constructor. assumption.
Qed.

Lemma sort_values_date_sorted (df : list Row) :
  Sorted date_order (sort_values_date df).
Proof.
  induction df as [|r t IH]; simpl.
  - constructor.
  - apply insert_by_date_sorted, IH.
Qed.

Lemma map_add_derived_sorted (l : list Row) :
  Sorted date_order l -> Sorted date_order (map add_derived l).
Proof.
  induction 1 as [|a l Hs IH Hh]; simpl.
  - constructor.
  - constructor; [exact IH|].
    destruct Hh; simpl; constructor. assumption.
Qed.

(** C1, as in the specification, fails: a row whose date does not parse and a
    row whose amount does not parse are both still in the normalized frame,
    the first with a null date (sorted last), the second with a null
    amount. *)
Lemma normalize_keeps_null_rows :
  map date (normalize raw_with_bad_cells) = [Some (ymd 2024 1 1); None]
  /\ map amount (normalize raw_with_bad_cells) = [None; Some 5%Q]
  /\ ~ (forall r, In r (normalize raw_with_bad_cells) ->
                  date r <> None /\ amount r <> None).
Proof.
  split; [reflexivity | split; [reflexivity |]].
  intros H.
  destruct (H (add_derived (coerce_row
                 (raw_row (Unparsable "soon") (Parsed 5%Q)
                    (Some "food"%string))))) as [Hd _].
  - right. left. reflexivity.
  - apply Hd. reflexivity.
Qed.

(** C1, amended: normalization drops nothing.  The normalized frame is a
    reordering of the coerced rows, in ascending date order with null dates
    last, and every raw row is found in it with the coerced date and amount:
    null where the coercion failed. *)
Theorem normalize_retains_every_row (raw : list RawRow) :
  Permutation (normalize raw) (map (fun r => add_derived (coerce_row r)) raw)
  /\ List.length (normalize raw) = List.length raw
  /\ Sorted date_order (normalize raw)
  /\ (forall r, In r raw ->
        exists r', In r' (normalize raw)
                   /\ date r' = to_datetime (raw_date r)
                   /\ amount r' = to_numeric (raw_amount r)).
Proof.
  assert (P : Permutation (normalize raw)
                (map (fun r => add_derived (coerce_row r)) raw)).
  { unfold normalize. rewrite <- (map_map coerce_row add_derived).
    apply Permutation_map, sort_values_date_perm. }
  split; [exact P | split; [| split]].
  - rewrite (Permutation_length P). apply length_map.
  - apply map_add_derived_sorted, sort_values_date_sorted.
  - intros r Hr. exists (add_derived (coerce_row r)). split.
    + apply (Permutation_in _ (Permutation_sym P)).
      apply in_map_iff. exists r. split; [reflexivity | exact Hr].
    + split; reflexivity.
Qed.

Lemma normalize_retains_every_row_witness :
  exists r', In r' (normalize raw_with_bad_cells)
             /\ date r' = None /\ amount r' = Some 5%Q.
Proof.
  destruct (normalize_retains_every_row raw_with_bad_cells)
    as (_ & _ & _ & H).
  apply (H (raw_row (Unparsable "soon") (Parsed 5%Q) (Some "food"%string))).
  left. reflexivity.
Defined.

(** ** Filters *)

Lemma filter_types_nil (types sel : list string) : filter_types types sel [] = [].
Proof. unfold filter_types. destruct (nonempty types && nonempty sel); reflexivity. Qed.

Lemma filter_user_nil (u : option string) : filter_user u [] = [].
Proof.
  unfold filter_user. destruct u as [u|]; [|reflexivity].
  destruct (negb (u =? EmptyString)%string && negb (u =? "All")%string);
    reflexivity.
Qed.

Lemma filter_types_In (types sel : list string) (df : list Row) (r : Row) :
  In r (filter_types types sel df) -> In r df.
Proof.
  unfold filter_types. destruct (nonempty types && nonempty sel); [|tauto].
  intros H. apply filter_In in H. tauto.
Qed.

Lemma filter_user_In (u : option string) (df : list Row) (r : Row) :
  In r (filter_user u df) -> In r df.
Proof.
  unfold filter_user. destruct u as [u|]; [|tauto].
  destruct (negb (u =? EmptyString)%string && negb (u =? "All")%string);
    [|tauto].
  intros H. apply filter_In in H. tauto.
Qed.

Lemma filter_date_In (s e : option Timestamp) (df : list Row) (r : Row) :
  In r (filter_date s e df) ->
  In r df /\ exists t lo hi,
    date r = Some t /\ s = Some lo /\ e = Some hi /\ lo <= t <= hi.
Proof.
  unfold filter_date. intros H. apply filter_In in H. destruct H as [Hin Hb].
  split; [exact Hin|].
  apply andb_true_iff in Hb. destruct Hb as [Hge Hle].
  destruct (date r) as [t|], s as [lo|], e as [hi|]; simpl in *;
    try discriminate.
  exists t, lo, hi. apply Z.leb_le in Hge, Hle. repeat split; lia.
Qed.

Lemma apply_filters_In (df : list Row) (f : FilterSpec) (r : Row) :
  In r (apply_filters df f) ->
  In r (filter_date (start_date f) (end_date f) df).
Proof.
  unfold apply_filters. intros H.
  apply filter_user_In, filter_types_In in H. exact H.
Qed.

Lemma filter_date_inverted (s e : Timestamp) (df : list Row) :
  e < s -> filter_date (Some s) (Some e) df = [].
Proof.
  intros Hlt. unfold filter_date.
  induction df as [|r t IH]; simpl; [reflexivity|].
  destruct (date r) as [x|]; simpl; [|exact IH].
  destruct (s <=? x) eqn:E1; simpl; [|exact IH].
  destruct (x <=? e) eqn:E2; simpl; [|exact IH].
  apply Z.leb_le in E1, E2. lia.
Qed.

Lemma fold_min_opt_some (l : list Timestamp) (a : Timestamp) :
  exists lo, fold_left min_opt l (Some a) = Some lo /\ lo <= a
             /\ forall t, In t l -> lo <= t.
Proof.
  revert a. induction l as [|x l IH]; intros a; simpl.
  - exists a. repeat split; [lia | contradiction].
  - destruct (IH (Z.min a x)) as (lo & E & Hle & Hall).
    exists lo. repeat split; [exact E | lia |].
    intros t [<- | Ht]; [lia | apply Hall, Ht].
Qed.

Lemma fold_max_opt_some (l : list Timestamp) (a : Timestamp) :
  exists hi, fold_left max_opt l (Some a) = Some hi /\ a <= hi
             /\ forall t, In t l -> t <= hi.
Proof.
  revert a. induction l as [|x l IH]; intros a; simpl.
  - exists a. repeat split; [lia | contradiction].
  - destruct (IH (Z.max a x)) as (hi & E & Hle & Hall).
    exists hi. repeat split; [exact E | lia |].
    intros t [<- | Ht]; [lia | apply Hall, Ht].
Qed.

Lemma In_dropna {A : Type} (l : list (option A)) (a : A) :
  In a (dropna l) <-> In (Some a) l.
Proof.
  induction l as [|[x|] l IH]; simpl.
  - tauto.
  - rewrite IH. split; intros [H | H]; auto; left; congruence.
  - rewrite IH. split; [auto | intros [H | H]; [discriminate | exact H]].
Qed.

Lemma min_date_le (df : list Row) (r : Row) (t : Timestamp) :
  In r df -> date r = Some t ->
  exists lo, min_date df = Some lo /\ lo <= t.
Proof.
  intros Hin Hd. unfold min_date.
  assert (Ht : In t (dropna (map date df))).
  { apply In_dropna. rewrite <- Hd. apply in_map, Hin. }
  destruct (dropna (map date df)) as [|a l]; [contradiction|].
  simpl. destruct (fold_min_opt_some l a) as (lo & E & Hle & Hall).
  exists lo. split; [exact E|].
  destruct Ht as [<- | Ht]; [exact Hle | apply Hall, Ht].
Qed.

Lemma max_date_ge (df : list Row) (r : Row) (t : Timestamp) :
  In r df -> date r = Some t ->
  exists hi, max_date df = Some hi /\ t <= hi.
Proof.
  intros Hin Hd. unfold max_date.
  assert (Ht : In t (dropna (map date df))).
  { apply In_dropna. rewrite <- Hd. apply in_map, Hin. }
  destruct (dropna (map date df)) as [|a l]; [contradiction|].
  simpl. destruct (fold_max_opt_some l a) as (hi & E & Hle & Hall).
  exists hi. split; [exact E|].
  destruct Ht as [<- | Ht]; [exact Hle | apply Hall, Ht].
Qed.

Lemma filter_date_full_span (df : list Row) :
  filter_date (min_date df) (max_date df) df
  = filter (fun r => negb (isnull (date r))) df.
Proof.
  unfold filter_date. apply filter_ext_in. intros r Hin.
  destruct (date r) as [t|] eqn:Hd; simpl; [|reflexivity].
  destruct (min_date_le df r t Hin Hd) as (lo & -> & Hlo).
  destruct (max_date_ge df r t Hin Hd) as (hi & -> & Hhi).
  apply andb_true_iff. split; apply Z.leb_le; assumption.
Qed.

(** C2, as in the specification, fails: with the start after the end the
    filter keeps nothing and the script stops on the no-data warning, while
    the same choices without the date step keep all three rows. *)
Lemma inverted_range_differs_from_no_filter :
  ymd 2024 1 1 < ymd 2024 1 2
  /\ resolve_range (normalize raw_three)
       (DateSeq [days_of (ymd 2024 1 2); days_of (ymd 2024 1 1)])
     = (start_date inverted_spec, end_date inverted_spec)
  /\ apply_filters (normalize raw_three) inverted_spec = []
  /\ filtered (normalize raw_three) inverted_spec = Stopped NoDataAfterFilters
  /\ apply_filters_no_date (normalize raw_three) inverted_spec
     = normalize raw_three
  /\ apply_filters (normalize raw_three) inverted_spec
     <> apply_filters_no_date (normalize raw_three) inverted_spec.
Proof.
  repeat split; try reflexivity. discriminate.
Qed.

(** C2, amended: the bounds are used in the order the date input gives them.
    When the start is after the end no row passes the range comparison, the
    filtered frame is empty and the script stops on the no-data warning.  The
    observed span is what an empty date input resolves to, and with it the
    range step keeps exactly the rows that have a date. *)
Theorem inverted_range_selects_nothing (df : list Row) :
  (forall d0 d1 rest,
      resolve_range df (DateSeq (d0 :: d1 :: rest))
      = (Some (midnight d0), Some (midnight d1)))
  /\ (forall f s e,
        start_date f = Some s -> end_date f = Some e -> e < s ->
        apply_filters df f = []
        /\ filtered df f = Stopped NoDataAfterFilters)
  /\ resolve_range df (DateSeq []) = (min_date df, max_date df)
  /\ filter_date (min_date df) (max_date df) df
     = filter (fun r => negb (isnull (date r))) df.
Proof.
  split; [reflexivity | split; [| split; [reflexivity |]]].
  - intros f s e Hs He Hlt.
    assert (E : apply_filters df f = []).
    { unfold apply_filters. rewrite Hs, He, (filter_date_inverted s e df Hlt).
      rewrite filter_types_nil. apply filter_user_nil. }
    split; [exact E|]. unfold filtered. rewrite E. reflexivity.
  - apply filter_date_full_span.
Qed.

Lemma inverted_range_selects_nothing_witness :
  apply_filters (normalize raw_three) inverted_spec = []
  /\ filtered (normalize raw_three) inverted_spec = Stopped NoDataAfterFilters.
Proof.
  destruct (inverted_range_selects_nothing (normalize raw_three))
    as (_ & H & _).
  apply (H inverted_spec (ymd 2024 1 2) (ymd 2024 1 1));
    [reflexivity | reflexivity | reflexivity].
Defined.

(** C9: with no type selected the type filter is skipped and every row passes
    it; it removes rows only when both the list of known types and the
    selection are non-empty, and then keeps the rows whose type is
    selected. *)
Theorem empty_selection_skips_type_filter (df : list Row) :
  (forall types, filter_types types [] df = df)
  /\ (forall f, selected_types f = [] ->
        apply_filters df f
        = filter_user (user_search f)
            (filter_date (start_date f) (end_date f) df))
  /\ (forall types sel, types <> [] -> sel <> [] ->
        filter_types types sel df
        = filter (fun r => isin sel (expense_type r)) df)
  /\ (forall types sel, filter_types types sel df <> df -> sel <> []).
Proof.
  assert (H0 : forall types d, filter_types types [] d = d).
  { intros types d. unfold filter_types. rewrite andb_false_r. reflexivity. }
  repeat split.
  - intros types. apply H0.
  - intros f Hsel. unfold apply_filters. rewrite Hsel, H0. reflexivity.
  - intros types sel Ht Hs. unfold filter_types.
    destruct types; [contradiction|]. destruct sel; [contradiction|].
    reflexivity.
  - intros types sel Hne ->. apply Hne, H0.
Qed.

Lemma empty_selection_skips_type_filter_witness :
  apply_filters (normalize raw_three)
    {| start_date := Some (ymd 2024 1 1); end_date := Some (ymd 2024 1 2);
       selected_types := []; user_search := Some "All"%string |}
  = normalize raw_three
  /\ filter_types ["food"; "travel"]%string ["travel"]%string
       (normalize raw_three)
     = filter (fun r => isin ["travel"]%string (expense_type r))
         (normalize raw_three).
Proof.
  destruct (empty_selection_skips_type_filter (normalize raw_three))
    as (_ & H1 & H2 & _).
  split.
  - rewrite H1; reflexivity.
  - apply H2; discriminate.
Defined.

(** ** Group-by sums *)

Section GroupByFacts.
Context {K : Type} (cmp : K -> K -> comparison).
Hypothesis cmp_eq : forall a b, cmp a b = Eq <-> a = b.
Hypothesis cmp_lt_trans :
  forall a b c, cmp a b = Lt -> cmp b c = Lt -> cmp a c = Lt.
Hypothesis cmp_gt : forall a b, cmp a b = Gt -> cmp b a = Lt.

Lemma cmp_refl (k : K) : cmp k k = Eq.
Proof. apply cmp_eq. reflexivity. Qed.

Lemma cmp_lt_neq (a b : K) : cmp a b = Lt -> a <> b.
Proof. intros H E. apply cmp_eq in E. congruence. Qed.

Lemma upsert_keys (k : K) (a : option Q) (acc : list (K * Q)) (k' : K) :
  In k' (map fst (upsert cmp k a acc)) <-> k' = k \/ In k' (map fst acc).
Proof.
  induction acc as [|[h s] rest IH]; simpl.
  - intuition.
  - destruct (cmp k h) eqn:E; simpl.
    + apply cmp_eq in E. subst h. intuition.
    + intuition.
    + rewrite IH. intuition.
Qed.

Lemma upsert_sorted (k : K) (a : option Q) (acc : list (K * Q)) :
  StronglySorted (key_lt cmp) (map fst acc) ->
  StronglySorted (key_lt cmp) (map fst (upsert cmp k a acc)).
Proof.
  induction acc as [|[h s] rest IH]; simpl; intros Hs.
  - repeat constructor.
  - inversion Hs as [|? ? Hrest Hall]; subst.
    destruct (cmp k h) eqn:E; simpl.
    + constructor; assumption.
    + constructor; [exact Hs|].
      constructor; [exact E|].
      eapply Forall_impl; [|exact Hall].
      intros x Hx. exact (cmp_lt_trans _ _ _ E Hx).
    + constructor; [apply IH, Hrest|].
      apply Forall_forall. intros x Hx.
      apply upsert_keys in Hx. destruct Hx as [-> | Hx].
      * apply cmp_gt, E.
      * rewrite Forall_forall in Hall. apply Hall, Hx.
Qed.

Lemma lookup_above (k : K) (l : list (K * Q)) :
  Forall (key_lt cmp k) (map fst l) -> lookup cmp k l = None.
Proof.
  induction l as [|[h s] rest IH]; simpl; intros Hall; [reflexivity|].
  inversion Hall as [|? ? Hh Hrest]; subst.
  unfold key_lt in Hh. rewrite Hh. apply IH, Hrest.
Qed.

Lemma lookup_upsert_same (k : K) (a : option Q) (acc : list (K * Q)) :
  StronglySorted (key_lt cmp) (map fst acc) ->
  lookup cmp k (upsert cmp k a acc)
  = Some (add_amount (or_zero (lookup cmp k acc)) a).
Proof.
  induction acc as [|[h s] rest IH]; simpl; intros Hs.
  - rewrite cmp_refl. reflexivity.
  - inversion Hs as [|? ? Hrest Hall]; subst.
    destruct (cmp k h) eqn:E; simpl.
    + rewrite E. reflexivity.
    + rewrite cmp_refl. rewrite lookup_above; [reflexivity|].
      eapply Forall_impl; [|exact Hall].
      intros x Hx. exact (cmp_lt_trans _ _ _ E Hx).
    + rewrite E. apply IH, Hrest.
Qed.

Lemma lookup_upsert_other (k k' : K) (a : option Q) (acc : list (K * Q)) :
  k' <> k -> lookup cmp k' (upsert cmp k a acc) = lookup cmp k' acc.
Proof.
  intros Hne.
  assert (Hc : cmp k' k <> Eq) by (rewrite cmp_eq; exact Hne).
  induction acc as [|[h s] rest IH]; simpl.
  - destruct (cmp k' k); [contradiction | reflexivity | reflexivity].
  - destruct (cmp k h) eqn:E; simpl.
    + apply cmp_eq in E. subst h.
      destruct (cmp k' k); [contradiction | reflexivity | reflexivity].
    + destruct (cmp k' k); [contradiction | reflexivity | reflexivity].
    + rewrite IH. reflexivity.
Qed.

Lemma lookup_In (k : K) (s : Q) (l : list (K * Q)) :
  StronglySorted (key_lt cmp) (map fst l) ->
  (In (k, s) l <-> lookup cmp k l = Some s).
Proof.
  induction l as [|[h v] rest IH]; simpl; intros Hs.
  - split; [contradiction | discriminate].
  - inversion Hs as [|? ? Hrest Hall]; subst.
    rewrite Forall_forall in Hall.
    destruct (cmp k h) eqn:E.
    + apply cmp_eq in E. subst h. split.
      * intros [H | H]; [congruence|].
        exfalso. apply (cmp_lt_neq k k); [|reflexivity].
        apply Hall. change k with (fst (k, s)). apply in_map, H.
      * intros H. left. congruence.
    + rewrite <- (IH Hrest). split; [|tauto].
      intros [H | H]; [|exact H].
      inversion H; subst. rewrite cmp_refl in E. discriminate.
    + rewrite <- (IH Hrest). split; [|tauto].
      intros [H | H]; [|exact H].
      inversion H; subst. rewrite cmp_refl in E. discriminate.
Qed.

Lemma sorted_keys_NoDup (l : list K) :
  StronglySorted (key_lt cmp) l -> NoDup l.
Proof.
  induction 1 as [|a l Hs IH Hall]; constructor; [|exact IH].
  intros Hin. rewrite Forall_forall in Hall.
  apply (cmp_lt_neq a a); [apply Hall, Hin | reflexivity].
Qed.

Variable key : Row -> option K.

Lemma group_fold_sorted (df : list Row) (acc : list (K * Q)) :
  StronglySorted (key_lt cmp) (map fst acc) ->
  StronglySorted (key_lt cmp) (map fst (fold_left (group_step cmp key) df acc)).
Proof.
  revert acc. induction df as [|r df IH]; simpl; intros acc Hs; [exact Hs|].
  apply IH. unfold group_step. destruct (key r); [|exact Hs].
  apply upsert_sorted, Hs.
Qed.

Lemma group_fold_keys (df : list Row) (acc : list (K * Q)) (k : K) :
  In k (map fst (fold_left (group_step cmp key) df acc))
  <-> In k (map fst acc) \/ In (Some k) (map key df).
Proof.
  revert acc. induction df as [|r df IH]; simpl; intros acc.
  - tauto.
  - rewrite IH. unfold group_step. destruct (key r) as [k0|].
    + rewrite upsert_keys. split.
      * intros [[-> | H] | H]; auto.
      * intros [H | [H | H]]; auto. inversion H. auto.
    + split.
      * intros [H | H]; auto.
      * intros [H | [H | H]]; auto. discriminate.
Qed.

Lemma group_fold_lookup (df : list Row) (acc : list (K * Q)) (k : K) :
  StronglySorted (key_lt cmp) (map fst acc) ->
  lookup cmp k (fold_left (group_step cmp key) df acc)
  = match lookup cmp k acc, map amount (filter (has_key cmp key k) df) with
    | None, [] => None
    | o, l => Some (fold_left add_amount l (or_zero o))
    end.
Proof.
  revert acc. induction df as [|r df IH]; simpl; intros acc Hs.
  - destruct (lookup cmp k acc); reflexivity.
  - assert (Hs' : StronglySorted (key_lt cmp) (map fst (group_step cmp key acc r))).
    { unfold group_step. destruct (key r); [apply upsert_sorted|]; exact Hs. }
    rewrite (IH _ Hs'). clear IH Hs'. unfold group_step.
    destruct (has_key cmp key k r) eqn:Hk; unfold has_key in Hk;
      destruct (key r) as [k0|]; try discriminate.
    + destruct (cmp k0 k) eqn:E; try discriminate.
      apply cmp_eq in E. subst k0.
      rewrite (lookup_upsert_same k (amount r) acc Hs). simpl.
      destruct (lookup cmp k acc); reflexivity.
    + rewrite lookup_upsert_other; [reflexivity|].
      intros ->. rewrite cmp_refl in Hk. discriminate.
    + reflexivity.
Qed.

Lemma groupby_sum_sorted (df : list Row) :
  StronglySorted (key_lt cmp) (map fst (groupby_sum cmp key df)).
Proof. apply (group_fold_sorted df []). constructor. Qed.

Lemma groupby_sum_keys (df : list Row) (k : K) :
  In k (map fst (groupby_sum cmp key df)) <-> In (Some k) (map key df).
Proof.
  unfold groupby_sum. rewrite group_fold_keys. simpl. tauto.
Qed.

Lemma groupby_sum_total (df : list Row) (k : K) (s : Q) :
  In (k, s) (groupby_sum cmp key df) ->
  s = nansum (map amount (filter (has_key cmp key k) df)).
Proof.
  intros Hin. apply lookup_In in Hin; [|apply groupby_sum_sorted].
  unfold groupby_sum in Hin.
  rewrite group_fold_lookup in Hin; [|constructor].
  simpl in Hin. unfold nansum.
  destruct (map amount (filter (has_key cmp key k) df)); [discriminate|].
  simpl in Hin |- *. congruence.
Qed.
End GroupByFacts.

(** ** Daily aggregate *)

Lemma Zcompare_lt_trans (a b c : Z) :
  (a ?= b) = Lt -> (b ?= c) = Lt -> (a ?= c) = Lt.
Proof. rewrite !Z.compare_lt_iff. lia. Qed.

Lemma Zcompare_gt_lt (a b : Z) : (a ?= b) = Gt -> (b ?= a) = Lt.
Proof. rewrite Z.compare_gt_iff, Z.compare_lt_iff. tauto. Qed.

Lemma compare_sorted_lt (l : list Z) :
  StronglySorted (fun a b => (a ?= b) = Lt) l -> StronglySorted Z.lt l.
Proof.
  induction 1 as [|a l Hs IH Hall]; constructor; [exact IH|].
  eapply Forall_impl; [|exact Hall].
  intros x Hx. apply Z.compare_lt_iff, Hx.
Qed.

Lemma daily_group_sorted (df : list Row) :
  StronglySorted Z.lt (map fst (daily_group df)).
Proof.
  apply compare_sorted_lt.
  apply (groupby_sum_sorted Z.compare Z.compare_eq_iff Zcompare_lt_trans
           Zcompare_gt_lt).
Qed.






(** C10: a row kept by the date-range step has a date, and that date lies
    between the two bounds; rows with a null date never pass.  So every row of
    the filtered frame has a date, and that date is a group of the daily
    aggregate of line 140. *)
Theorem range_filter_excludes_null_dates (df : list Row) (f : FilterSpec) :
  (forall r, In r (filter_date (start_date f) (end_date f) df) ->
     exists t lo hi,
       date r = Some t /\ start_date f = Some lo /\ end_date f = Some hi
       /\ lo <= t <= hi)
  /\ (forall r, date r = None ->
        ~ In r (filter_date (start_date f) (end_date f) df))
  /\ (forall r, In r (apply_filters df f) ->
        exists t, date r = Some t
                  /\ In t (map fst (daily_group (apply_filters df f)))).
Proof.
  repeat split.
  - intros r Hin. apply (filter_date_In _ _ _ _ Hin).
  - intros r Hnull Hin.
    destruct (filter_date_In _ _ _ _ Hin) as (_ & t & _ & _ & Hd & _).
    congruence.
  - intros r Hin.
    destruct (filter_date_In _ _ _ _ (apply_filters_In _ _ _ Hin))
      as (_ & t & _ & _ & Hd & _).
    exists t. split; [exact Hd|].
    apply (groupby_sum_keys Z.compare Z.compare_eq_iff).
    rewrite <- Hd. apply in_map, Hin.
Qed.

Lemma range_filter_excludes_null_dates_witness :
  map date
    (filter_date (Some (ymd 2024 1 1)) (Some (ymd 2024 1 2))
       (normalize raw_with_bad_cells))
  = [Some (ymd 2024 1 1)]
  /\ exists t lo hi,
       Some (ymd 2024 1 1) = Some t /\ Some (ymd 2024 1 1) = Some lo
       /\ Some (ymd 2024 1 2) = Some hi /\ lo <= t <= hi.
Proof.
  split; [reflexivity|].
  destruct (range_filter_excludes_null_dates (normalize raw_with_bad_cells)
              {| start_date := Some (ymd 2024 1 1);
                 end_date := Some (ymd 2024 1 2);
                 selected_types := []; user_search := None |}) as (H & _).
  apply (H (add_derived (coerce_row
              (raw_row (Parsed (ymd 2024 1 1)) (Unparsable "abc")
                 (Some "food"%string))))).
  left. reflexivity.
Defined.

(** ** Moving average *)

Lemma lastn_snoc {A : Type} (w : nat) (pre : list A) (x : A) :
  lastn w (lastn w pre ++ [x]) = lastn w (pre ++ [x]).
Proof.
  unfold lastn.
  rewrite !length_app, length_skipn. simpl.
  rewrite !skipn_app, skipn_skipn, length_skipn.
  f_equal; f_equal; lia.
Qed.

Lemma firstn_snoc {A : Type} (pre rest : list A) (x : A) :
  firstn (List.length pre + 0 + 1) (pre ++ x :: rest) = pre ++ [x].
Proof.
  replace (List.length pre + 0 + 1)%nat with (List.length pre + 1)%nat by lia.
  rewrite firstn_app_2. reflexivity.
Qed.

Lemma rolling_mean_from_nth (w : nat) (l pre : list Q) (i : nat) :
  (i < List.length l)%nat ->
  nth i (rolling_mean_from w (lastn w pre) l) None
  = mean (lastn w (firstn (List.length pre + i + 1) (pre ++ l))).
Proof.
  revert pre i. induction l as [|x rest IH]; simpl; intros pre i Hi; [lia|].
  rewrite lastn_snoc. destruct i as [|i].
  - rewrite firstn_snoc. reflexivity.
  - rewrite IH by lia. rewrite length_app, <- app_assoc. simpl.
    do 3 f_equal. lia.
Qed.

Lemma rolling_mean_nth (w : nat) (l : list Q) (i : nat) :
  (i < List.length l)%nat ->
  nth i (rolling_mean w l) None = mean (lastn w (firstn (i + 1) l)).
Proof.
  intros Hi. unfold rolling_mean.
  change (@nil Q) with (lastn w (@nil Q)) at 1.
  rewrite rolling_mean_from_nth by exact Hi. reflexivity.
Qed.

Lemma lastn_firstn_window (l : list Q) (i : nat) :
  (i < List.length l)%nat -> lastn 7 (firstn (i + 1) l) = window_at l i.
Proof.
  intros Hi. unfold lastn, window_at.
  rewrite length_firstn, skipn_firstn_comm.
  replace (Nat.min (i + 1) (List.length l) - 7)%nat with (i - 6)%nat by lia.
  reflexivity.
Qed.

Lemma rolling_mean_length (w : nat) (l : list Q) :
  List.length (rolling_mean w l) = List.length l.
Proof.
  unfold rolling_mean. generalize (@nil Q).
  induction l as [|x rest IH]; simpl; intros buf; [reflexivity|].
  rewrite IH. reflexivity.
Qed.

Lemma fold_left_Qplus (l : list Q) (a : Q) :
  (fold_left Qplus l a == a + fold_right Qplus 0 l)%Q.
Proof.
  revert a. induction l as [|x l IH]; simpl; intros a.
  - ring.
  - rewrite IH. ring.
Qed.

Lemma mean_arithmetic (l : list Q) :
  l <> [] -> exists m, mean l = Some m /\ (m == arithmetic_mean l)%Q.
Proof.
  destruct l as [|x l]; [congruence|]. intros _.
  eexists. split; [reflexivity|].
  unfold arithmetic_mean, sum_q. rewrite fold_left_Qplus.
  apply Qdiv_comp; [ring | reflexivity].
Qed.

Lemma window_at_nonempty (l : list Q) (i : nat) :
  (i < List.length l)%nat -> window_at l i <> [].
Proof.
  intros Hi E. apply (f_equal (@List.length Q)) in E.
  unfold window_at in E. rewrite length_firstn, length_skipn in E.
  simpl in E. lia.
Qed.

(** C5: at every position of the daily series, also of a series shorter than
    seven points, the moving average is the arithmetic mean of the amounts at
    positions [max 0 (i - 6)] to [i]; at position 0 it is the amount itself
    and below position 6 it is the mean of positions 0 to [i]. *)
Theorem rolling_mean_is_window_mean (d : list (Timestamp * Q)) (i : nat) :
  (i < List.length d)%nat ->
  List.length (seven_day_avg d) = List.length d
  /\ nth i (seven_day_avg d) None = mean (window_at (map snd d) i)
  /\ exists m,
       nth i (seven_day_avg d) None = Some m
       /\ (m == arithmetic_mean (window_at (map snd d) i))%Q
       /\ (i = 0%nat -> (m == snd (nth 0 d (0%Z, 0%Q)))%Q)
       /\ ((i < 6)%nat ->
           (m == arithmetic_mean (firstn (i + 1) (map snd d)))%Q).
Proof.
  intros Hi. unfold seven_day_avg.
  assert (Hl : (i < List.length (map snd d))%nat)
    by (rewrite length_map; exact Hi).
  assert (E : nth i (rolling_mean 7 (map snd d)) None
              = mean (window_at (map snd d) i)).
  { rewrite rolling_mean_nth by exact Hl.
    rewrite lastn_firstn_window by exact Hl. reflexivity. }
  split; [rewrite rolling_mean_length; apply length_map | split; [exact E|]].
  destruct (mean_arithmetic (window_at (map snd d) i)
              (window_at_nonempty (map snd d) i Hl)) as (m & Hm & Hq).
  exists m. rewrite E. repeat split; try assumption.
  - intros ->. rewrite Hq. destruct d as [|[t x] d]; [simpl in Hi; lia|].
    unfold window_at, arithmetic_mean. simpl. field.
  - intros Hlt. rewrite Hq. unfold window_at.
    replace (i - 6)%nat with 0%nat by lia.
    rewrite Nat.sub_0_r. reflexivity.
Qed.

Lemma rolling_mean_is_window_mean_witness :
  nth 1 (seven_day_avg [(1, 4%Q); (2, 6%Q); (5, 11%Q)]) None
  = mean (window_at [4; 6; 11]%Q 1)
  /\ nth 8 (seven_day_avg
              [(1, 1%Q); (2, 2%Q); (3, 3%Q); (4, 4%Q); (5, 5%Q); (6, 6%Q);
               (7, 7%Q); (8, 8%Q); (9, 9%Q)]) None
     = mean [3; 4; 5; 6; 7; 8; 9]%Q.
Proof.
  split.
  - apply (rolling_mean_is_window_mean [(1, 4%Q); (2, 6%Q); (5, 11%Q)] 1).
    simpl. lia.
  - apply (rolling_mean_is_window_mean
             [(1, 1%Q); (2, 2%Q); (3, 3%Q); (4, 4%Q); (5, 5%Q); (6, 6%Q);
              (7, 7%Q); (8, 8%Q); (9, 9%Q)] 8).
    simpl. lia.
Defined.

(** ** Outlier rule *)

Lemma Q2R_zero : Q2R 0 = 0%R.
Proof. unfold Q2R. simpl. lra. Qed.

Lemma count_pos (x : Q) (l : list Q) :
  (0 < inject_Z (Z.of_nat (List.length (x :: l))))%Q.
Proof. unfold Qlt. simpl. lia. Qed.

Lemma sum_squares_nonneg (m : Q) (l : list Q) :
  (0 <= fold_right Qplus 0 (map (fun x => (x - m) * (x - m)) l))%Q.
Proof.
  induction l as [|x l IH]; cbn [map fold_right].
  - apply Qle_refl.
  - assert (H : (0 <= (x - m) * (x - m))%Q).
    { apply Rle_Qle. rewrite Q2R_mult, Q2R_zero.
      apply Rle_0_sqr. }
    exact (Qplus_le_compat 0 _ 0 _ H IH).
Qed.

Lemma variance0_nonneg (l : list Q) (v : Q) :
  variance0 l = Some v -> (0 <= v)%Q.
Proof.
  unfold variance0. destruct (mean l) as [m|] eqn:Hm; [|discriminate].
  intros H. injection H as <-.
  destruct l as [|x l]; [discriminate|].
  unfold sum_q. rewrite fold_left_Qplus.
  apply Qle_shift_div_l; [apply count_pos|].
  rewrite Qmult_0_l, Qplus_0_l. apply sum_squares_nonneg.
Qed.

Lemma z_rule_real (s V D : R) :
  (0 < s)%R -> (s * s = V)%R ->
  (2 <= D / s <-> 0 <= D /\ 4 * V <= D * D)%R.
Proof.
  intros Hs Hv.
  assert (E : (D = D / s * s)%R) by (field; lra).
  split.
  - intros H. assert (H2 : (2 * s <= D)%R) by nra. split; nra.
  - intros [H0 H4]. apply Rnot_lt_le. intros Hlt.
    assert (H2 : (D < 2 * s)%R) by nra. nra.
Qed.

(** The rule of line 219 decided on the rationals. *)
Lemma ge_2_exact (l : list Q) (x : Q) :
  ge_2 (z_score l x) = is_outlier_exact l x.
Proof.
  unfold z_score, is_outlier_exact, z_divisor, std0.
  destruct (mean l) as [m|] eqn:Hm; [|reflexivity].
  destruct (variance0 l) as [v|] eqn:Hv; simpl; [|reflexivity].
  assert (Hv0 : (0 <= Q2R v)%R).
  { rewrite <- Q2R_zero. apply Qle_Rle, (variance0_nonneg l v Hv). }
  destruct (Req_dec_T (sqrt (Q2R v)) 0) as [E | NE]; simpl.
  - apply sqrt_eq_0 in E; [|exact Hv0].
    assert (Hq : (v == 0)%Q) by (apply eqR_Qeq; rewrite Q2R_zero; exact E).
    apply Qeq_bool_iff in Hq. rewrite Hq. reflexivity.
  - assert (Hpos : (0 < sqrt (Q2R v))%R).
    { destruct (sqrt_pos (Q2R v)) as [H | H]; [exact H | congruence]. }
    assert (Hne : Qeq_bool v 0 = false).
    { destruct (Qeq_bool v 0) eqn:B; [|reflexivity].
      apply Qeq_bool_iff, Qeq_eqR in B. rewrite Q2R_zero in B.
      rewrite B, sqrt_0 in NE. contradiction. }
    rewrite Hne. simpl.
    pose proof (z_rule_real (sqrt (Q2R v)) (Q2R v) (Q2R (x - m)) Hpos
                  (sqrt_sqrt _ Hv0)) as Hrule.
    destruct (Rle_dec 2 (Q2R (x - m) / sqrt (Q2R v))) as [Hz | Hz].
    + apply Hrule in Hz. destruct Hz as [H0 H4]. symmetry.
      apply andb_true_iff. split; apply Qle_bool_iff, Rle_Qle.
      * rewrite Q2R_zero. exact H0.
      * rewrite !Q2R_mult. replace (Q2R 4) with 4%R; [exact H4|].
        unfold Q2R. simpl. lra.
    + symmetry. apply not_true_is_false. intros B. apply Hz, Hrule.
      apply andb_true_iff in B. destruct B as [B0 B4].
      apply Qle_bool_iff, Qle_Rle in B0, B4.
      rewrite Q2R_zero in B0. rewrite !Q2R_mult in B4.
      replace (Q2R 4) with 4%R in B4; [tauto|].
      unfold Q2R. simpl. lra.
Qed.

Lemma outlier_mask_exact (l : list Q) :
  outlier_mask l = map (is_outlier_exact l) l.
Proof.
  unfold outlier_mask, z_scores. rewrite map_map.
  apply map_ext. intros x. apply ge_2_exact.
Qed.











(** ** Heat map *)

Lemma string_compare_refl (s : string) : String.compare s s = Eq.
Proof.
  pose proof (String.compare_antisym s s) as H.
  destruct (String.compare s s); simpl in H; [reflexivity | discriminate..].
Qed.






Lemma filtered_rows_derived (raw : list RawRow) (f : FilterSpec) (r : Row) :
  In r (apply_filters (normalize raw) f) ->
  weekday r = option_map day_name (date r)
  /\ month r = option_map month_name (date r).
Proof.
  intros Hin. apply apply_filters_In, filter_date_In in Hin.
  destruct Hin as [Hin _]. unfold normalize in Hin.
  apply in_map_iff in Hin. destruct Hin as (r0 & <- & _).
  split; reflexivity.
Qed.



(** C8: on the three rows (2024-01-01, 100, food), (2024-01-01, 50, food),
    (2024-01-02, 10, travel) with the sidebar left as it comes up, no row is
    filtered out, the daily series is [(2024-01-01, 150), (2024-01-02, 10)]
    and the sums by category are food 150 and travel 10. *)
Theorem end_to_end_three_rows :
  run_default raw_three = Some (Ran (views (normalize raw_three)))
  /\ v_daily (views (normalize raw_three))
     = [(ymd 2024 1 1, 150%Q); (ymd 2024 1 2, 10%Q)]
  /\ v_summary (views (normalize raw_three))
     = [("food"%string, 150%Q); ("travel"%string, 10%Q)].
Proof. repeat split; reflexivity. Qed.

(** * Further properties of the script *)

(** ** Labels offered by the sidebar (lines 104-111) *)

Lemma existsb_eqb_In (s : string) (l : list string) :
  existsb (String.eqb s) l = true <-> In s l.
Proof.
  rewrite existsb_exists. split.
  - intros (x & Hx & E). apply String.eqb_eq in E. subst. exact Hx.
  - intros H. exists s. split; [exact H | apply String.eqb_refl].
Qed.

Lemma unique_In (l seen : list string) (s : string) :
  In s (unique seen l) <-> In s l /\ ~ In s seen.
Proof.
  revert seen. induction l as [|x l IH]; intros seen; simpl.
  - tauto.
  - destruct (existsb (String.eqb x) seen) eqn:E.
    + apply existsb_eqb_In in E. rewrite IH. split.
      * tauto.
      * intros [[-> | H] Hn]; [contradiction | tauto].
    + assert (Hx : ~ In x seen).
      { intros H. apply existsb_eqb_In in H. congruence. }
      simpl. rewrite IH. simpl. split.
      * intros [<- | [H Hn]]; [tauto|]. split; [tauto|]. tauto.
      * intros [[<- | H] Hn]; [tauto|].
        destruct (String.string_dec x s) as [<- | Hne]; [tauto|]. tauto.
Qed.

Lemma unique_NoDup (l seen : list string) : NoDup (unique seen l).
Proof.
  revert seen. induction l as [|x l IH]; intros seen; simpl.
  - constructor.
  - destruct (existsb (String.eqb x) seen); [apply IH|].
    constructor; [|apply IH].
    rewrite unique_In. simpl. tauto.
Qed.

Lemma expense_types_In (df : list Row) (s : string) :
  In s (expense_types df) <-> In (Some s) (map expense_type df).
Proof.
  unfold expense_types. rewrite unique_In, In_dropna. simpl. tauto.
Qed.

Lemma user_list_In (df : list Row) (s : string) :
  In s (user_list df) <-> In (Some s) (map user_id df).
Proof.
  unfold user_list. rewrite unique_In, In_dropna. simpl. tauto.
Qed.

(** X1: the list of expense types and the list of users offered by the
    sidebar hold every non-null label of their column, and each one once. *)
Theorem sidebar_labels_distinct (df : list Row) :
  NoDup (expense_types df)
  /\ NoDup (user_list df)
  /\ (forall s, In s (expense_types df) <-> In (Some s) (map expense_type df))
  /\ (forall s, In s (user_list df) <-> In (Some s) (map user_id df)).
Proof.
  split; [apply unique_NoDup | split; [apply unique_NoDup | split]].
  - apply expense_types_In.
  - apply user_list_In.
Qed.

(** ** Composition of the three filters (lines 116-127) *)

Lemma filter_all {A : Type} (p : A -> bool) (l : list A) :
  (forall x, In x l -> p x = true) -> filter p l = l.
Proof.
  induction l as [|x l IH]; simpl; intros H; [reflexivity|].
  rewrite (H x (or_introl eq_refl)). f_equal. apply IH.
  intros y Hy. apply H. right. exact Hy.
Qed.

Lemma isin_In (sel : list string) (v : option string) :
  isin sel v = true <-> exists s, v = Some s /\ In s sel.
Proof.
  destruct v as [s|]; simpl.
  - rewrite existsb_eqb_In. split.
    + intros H. exists s. tauto.
    + intros (s' & E & H). congruence.
  - split; [discriminate | intros (s & E & _); discriminate].
Qed.

(** X2: with every known type selected, which is how the sidebar comes up,
    the type filter keeps the rows that have a type and removes the rows
    whose type is null, as soon as one row of the file has a type. *)
Theorem all_types_selected_drops_untyped (df part : list Row) :
  incl part df ->
  expense_types df <> [] ->
  filter_types (expense_types df) (expense_types df) part
  = filter (fun r => negb (isnull (expense_type r))) part.
Proof.
  intros Hincl Hne. unfold filter_types.
  assert (Ht : nonempty (expense_types df) = true).
  { destruct (expense_types df); [congruence | reflexivity]. }
  rewrite Ht. simpl andb.
  apply filter_ext_in. intros r Hr.
  destruct (expense_type r) as [s|] eqn:Hs; simpl; [|reflexivity].
  apply existsb_eqb_In, expense_types_In.
  rewrite <- Hs. apply in_map, Hincl, Hr.
Qed.

Lemma all_types_selected_drops_untyped_witness :
  filter_types (expense_types (normalize raw_untyped))
    (expense_types (normalize raw_untyped)) (normalize raw_untyped)
  = filter (fun r => negb (isnull (expense_type r))) (normalize raw_untyped).
Proof.
  apply all_types_selected_drops_untyped.
  - intros r Hr. exact Hr.
  - discriminate.
Defined.

Lemma filter_types_In_iff (types sel : list string) (l : list Row) (r : Row) :
  In r (filter_types types sel l)
  <-> In r l /\ (types = [] \/ sel = [] \/ isin sel (expense_type r) = true).
Proof.
  unfold filter_types. destruct types as [|ty tys]; simpl; [tauto|].
  destruct sel as [|s sel']; simpl nonempty; cbv iota; [tauto|].
  rewrite filter_In. split.
  - tauto.
  - intros [H [E | [E | E]]]; [discriminate | discriminate | tauto].
Qed.

Lemma eq_label_iff (v : option string) (u : string) :
  eq_label v u = true <-> v = Some u.
Proof.
  destruct v as [s|]; simpl.
  - rewrite String.eqb_eq. split; congruence.
  - split; discriminate.
Qed.

Lemma filter_user_In_iff (u : option string) (l : list Row) (r : Row) :
  In r (filter_user u l) <-> In r l /\ user_passes u r.
Proof.
  unfold filter_user, user_passes. destruct u as [s|]; [|tauto].
  destruct (String.eqb_spec s EmptyString) as [-> | Hn1]; simpl; [tauto|].
  destruct (String.eqb_spec s "All") as [-> | Hn2]; simpl; [tauto|].
  rewrite filter_In, eq_label_iff. tauto.
Qed.

Lemma filter_date_In_iff (s e : option Timestamp) (l : list Row) (r : Row) :
  In r (filter_date s e l)
  <-> In r l /\ exists t lo hi,
        date r = Some t /\ s = Some lo /\ e = Some hi /\ lo <= t <= hi.
Proof.
  split; [apply filter_date_In|].
  intros (Hin & t & lo & hi & Hd & -> & -> & Hlo & Hhi).
  unfold filter_date. apply filter_In. split; [exact Hin|].
  rewrite Hd. simpl. apply andb_true_iff. split; apply Z.leb_le; assumption.
Qed.


Lemma expense_types_nil (df : list Row) :
  expense_types df = [] <-> forall r, In r df -> expense_type r = None.
Proof.
  split.
  - intros E r Hr. destruct (expense_type r) as [s|] eqn:Hs; [|reflexivity].
    assert (H : In s (expense_types df)).
    { apply expense_types_In. rewrite <- Hs. apply in_map, Hr. }
    rewrite E in H. contradiction.
  - intros H. destruct (expense_types df) as [|s l] eqn:E; [reflexivity|].
    assert (Hs : In s (expense_types df)) by (rewrite E; left; reflexivity).
    apply expense_types_In, in_map_iff in Hs. destruct Hs as (r & Hr & Hin).
    rewrite (H r Hin) in Hr. discriminate.
Qed.

Lemma filter_types_fixed (types sel : list string) (l : list Row) :
  (forall r, In r l ->
     types = [] \/ sel = [] \/ isin sel (expense_type r) = true) ->
  filter_types types sel l = l.
Proof.
  intros H. unfold filter_types.
  destruct types as [|ty tys]; [reflexivity|].
  destruct sel as [|s sel']; [reflexivity|]. simpl nonempty. cbv iota.
  apply filter_all. intros r Hr.
  destruct (H r Hr) as [E | [E | E]]; [discriminate | discriminate | exact E].
Qed.

Lemma filter_user_fixed (u : option string) (l : list Row) :
  (forall r, In r l -> user_passes u r) -> filter_user u l = l.
Proof.
  intros H. unfold filter_user. destruct u as [s|]; [|reflexivity].
  destruct (String.eqb_spec s EmptyString) as [-> | Hn1]; simpl;
    [reflexivity|].
  destruct (String.eqb_spec s "All") as [-> | Hn2]; simpl; [reflexivity|].
  apply filter_all. intros r Hr. apply eq_label_iff.
  destruct (H r Hr) as [E | [E | E]]; [contradiction | contradiction | exact E].
Qed.

(** X4: filtering is idempotent.  Applying the same sidebar choices to the
    filtered frame, as happens when the downloaded file is uploaded again,
    keeps every row. *)
Theorem apply_filters_idempotent (df : list Row) (f : FilterSpec) :
  apply_filters (apply_filters df f) f = apply_filters df f.
Proof.
  set (d := apply_filters df f).
  assert (Hd : forall r, In r d ->
             In r df
             /\ (exists t lo hi,
                   date r = Some t /\ start_date f = Some lo
                   /\ end_date f = Some hi /\ lo <= t <= hi)
             /\ (expense_types df = [] \/ selected_types f = []
                 \/ isin (selected_types f) (expense_type r) = true)
             /\ user_passes (user_search f) r).
  { intros r Hr. unfold d, apply_filters in Hr.
    rewrite filter_user_In_iff, filter_types_In_iff, filter_date_In_iff in Hr.
    tauto. }
  unfold apply_filters at 1.
  assert (E1 : filter_date (start_date f) (end_date f) d = d).
  { unfold filter_date. apply filter_all. intros r Hr.
    destruct (Hd r Hr) as (_ & (t & lo & hi & Ht & -> & -> & Hlo & Hhi) & _).
    rewrite Ht. simpl. apply andb_true_iff. split; apply Z.leb_le; assumption. }
  rewrite E1.
  assert (E2 : filter_types (expense_types d) (selected_types f) d = d).
  { apply filter_types_fixed. intros r Hr.
    destruct (Hd r Hr) as (_ & _ & [E | [E | E]] & _); [| tauto | tauto].
    left. apply expense_types_nil. intros r' Hr'.
    destruct (Hd r' Hr') as (Hin & _).
    apply (proj1 (expense_types_nil df) E r' Hin). }
  rewrite E2.
  apply filter_user_fixed. intros r Hr. apply (Hd r Hr).
Qed.

(** ** Order of the filtered frame (lines 73, 116-127) *)

Lemma date_leb_trans (a b c : option Timestamp) :
  date_leb a b = true -> date_leb b c = true -> date_leb a c = true.
Proof.
  destruct a, b, c; simpl; intros H1 H2; try reflexivity; try discriminate.
  apply Z.leb_le in H1, H2. apply Z.leb_le. lia.
Qed.

Lemma filter_strongly_sorted {A : Type} (R : A -> A -> Prop) (p : A -> bool)
  (l : list A) :
  StronglySorted R l -> StronglySorted R (filter p l).
Proof.
  induction 1 as [|a l Hs IH Hall]; simpl; [constructor|].
  destruct (p a); [|exact IH].
  constructor; [exact IH|].
  rewrite Forall_forall in *. intros x Hx. apply filter_In in Hx.
  apply Hall. tauto.
Qed.

Lemma sorted_strongly (l : list Row) :
  Sorted date_order l -> StronglySorted date_order l.
Proof.
  apply Sorted_StronglySorted. intros a b c. unfold date_order.
  apply date_leb_trans.
Qed.

(** X5: the filtered frame is still in ascending date order, and so the
    dates of its rows, none of which is null, ascend. *)
Theorem filtered_frame_sorted (raw : list RawRow) (f : FilterSpec) :
  StronglySorted date_order (apply_filters (normalize raw) f)
  /\ StronglySorted Z.le
       (dropna (map date (apply_filters (normalize raw) f)))
  /\ List.length (dropna (map date (apply_filters (normalize raw) f)))
     = List.length (apply_filters (normalize raw) f).
Proof.
  assert (Hs : StronglySorted date_order (apply_filters (normalize raw) f)).
  { unfold apply_filters, filter_user, filter_types, filter_date.
    assert (H0 : StronglySorted date_order (normalize raw)).
    { apply sorted_strongly, map_add_derived_sorted, sort_values_date_sorted. }
    destruct (user_search f) as [u|];
      [destruct (negb (u =? EmptyString)%string && negb (u =? "All")%string)|];
      destruct (nonempty (expense_types (normalize raw))
                && nonempty (selected_types f));
      repeat apply filter_strongly_sorted; exact H0. }
  assert (Hd : forall r, In r (apply_filters (normalize raw) f) ->
                         date r <> None).
  { intros r Hr. apply apply_filters_In, filter_date_In in Hr.
    destruct Hr as (_ & t & _ & _ & E & _). congruence. }
  split; [exact Hs|].
  induction Hs as [|a l Hs IH Hall]; simpl; [split; [constructor | reflexivity]|].
  destruct (date a) as [t|] eqn:Ea;
    [|exfalso; apply (Hd a); [left; reflexivity | exact Ea]].
  destruct IH as [IH1 IH2]; [intros r Hr; apply Hd; right; exact Hr|].
  split; [|simpl; rewrite IH2; reflexivity].
  constructor; [exact IH1|].
  apply Forall_forall. intros x Hx. apply In_dropna, in_map_iff in Hx.
  destruct Hx as (r & Er & Hr). rewrite Forall_forall in Hall.
  specialize (Hall r Hr). unfold date_order in Hall.
  rewrite Ea, Er in Hall. simpl in Hall. apply Z.leb_le, Hall.
Qed.

(** ** Observed span and the date input (lines 81-101, 118) *)

Lemma fold_min_opt_attained (l : list Timestamp) (a : Timestamp) :
  exists lo, fold_left min_opt l (Some a) = Some lo /\ (lo = a \/ In lo l).
Proof.
  revert a. induction l as [|x l IH]; intros a; simpl.
  - exists a. auto.
  - destruct (IH (Z.min a x)) as (lo & E & H).
    exists lo. split; [exact E|].
    destruct H as [-> | H]; [|auto].
    destruct (Z.min_spec a x) as [[_ ->] | [_ ->]]; auto.
Qed.

Lemma fold_max_opt_attained (l : list Timestamp) (a : Timestamp) :
  exists hi, fold_left max_opt l (Some a) = Some hi /\ (hi = a \/ In hi l).
Proof.
  revert a. induction l as [|x l IH]; intros a; simpl.
  - exists a. auto.
  - destruct (IH (Z.max a x)) as (hi & E & H).
    exists hi. split; [exact E|].
    destruct H as [-> | H]; [|auto].
    destruct (Z.max_spec a x) as [[_ ->] | [_ ->]]; auto.
Qed.

Lemma min_date_attained (df : list Row) (lo : Timestamp) :
  min_date df = Some lo -> In (Some lo) (map date df).
Proof.
  unfold min_date. intros H. apply In_dropna.
  destruct (dropna (map date df)) as [|a l]; [discriminate|].
  simpl in H. destruct (fold_min_opt_attained l a) as (lo' & E & Hin).
  rewrite E in H. injection H as <-.
  destruct Hin as [-> | Hin]; simpl; auto.
Qed.

Lemma max_date_attained (df : list Row) (hi : Timestamp) :
  max_date df = Some hi -> In (Some hi) (map date df).
Proof.
  unfold max_date. intros H. apply In_dropna.
  destruct (dropna (map date df)) as [|a l]; [discriminate|].
  simpl in H. destruct (fold_max_opt_attained l a) as (hi' & E & Hin).
  rewrite E in H. injection H as <-.
  destruct Hin as [-> | Hin]; simpl; auto.
Qed.

Lemma min_date_none (df : list Row) :
  min_date df = None <-> forall r, In r df -> date r = None.
Proof.
  split.
  - intros H r Hr. destruct (date r) as [t|] eqn:E; [|reflexivity].
    destruct (min_date_le df r t Hr E) as (lo & Hlo & _). congruence.
  - intros H. destruct (min_date df) as [lo|] eqn:E; [|reflexivity].
    apply min_date_attained, in_map_iff in E. destruct E as (r & Hr & Hin).
    rewrite (H r Hin) in Hr. discriminate.
Qed.

Lemma max_date_none (df : list Row) :
  max_date df = None <-> forall r, In r df -> date r = None.
Proof.
  split.
  - intros H r Hr. destruct (date r) as [t|] eqn:E; [|reflexivity].
    destruct (max_date_ge df r t Hr E) as (hi & Hhi & _). congruence.
  - intros H. destruct (max_date df) as [hi|] eqn:E; [|reflexivity].
    apply max_date_attained, in_map_iff in E. destruct E as (r & Hr & Hin).
    rewrite (H r Hin) in Hr. discriminate.
Qed.

(** X6: the observed span.  [min_date] and [max_date] are null exactly when
    no row has a date; otherwise both are dates of rows, the first is not
    after the second, and every dated row lies between them. *)
Theorem observed_span (df : list Row) :
  (min_date df = None <-> forall r, In r df -> date r = None)
  /\ (max_date df = None <-> min_date df = None)
  /\ (forall lo hi,
        min_date df = Some lo -> max_date df = Some hi ->
        lo <= hi
        /\ In (Some lo) (map date df) /\ In (Some hi) (map date df)
        /\ forall r t, In r df -> date r = Some t -> lo <= t <= hi).
Proof.
  split; [apply min_date_none | split].
  - rewrite min_date_none, max_date_none. tauto.
  - intros lo hi Hlo Hhi.
    assert (Hb : forall r t, In r df -> date r = Some t -> lo <= t <= hi).
    { intros r t Hr Ht.
      destruct (min_date_le df r t Hr Ht) as (lo' & E1 & H1).
      destruct (max_date_ge df r t Hr Ht) as (hi' & E2 & H2).
      rewrite Hlo in E1. rewrite Hhi in E2.
      injection E1 as <-. injection E2 as <-. lia. }
    pose proof (min_date_attained df lo Hlo) as Hin.
    repeat split; try assumption.
    + apply in_map_iff in Hin. destruct Hin as (r & Hr & Hin).
      apply (Hb r lo Hin Hr).
    + apply max_date_attained, Hhi.
    + apply (Hb r t H H0).
    + apply (Hb r t H H0).
Qed.

Lemma observed_span_witness :
  ymd 2024 1 1 <= ymd 2024 1 2
  /\ In (Some (ymd 2024 1 1)) (map date (normalize raw_three))
  /\ In (Some (ymd 2024 1 2)) (map date (normalize raw_three)).
Proof.
  destruct (observed_span (normalize raw_three)) as (_ & _ & H).
  destruct (H (ymd 2024 1 1) (ymd 2024 1 2)) as (H1 & H2 & H3 & _);
    [reflexivity | reflexivity |].
  auto.
Defined.

Lemma midnight_days_of_le (t : Timestamp) : midnight (days_of t) <= t.
Proof.
  unfold midnight, days_of. rewrite Z.mul_comm.
  apply Z.mul_div_le. reflexivity.
Qed.

Lemma midnight_mono (a b : Timestamp) :
  a <= b -> midnight (days_of a) <= midnight (days_of b).
Proof.
  intros H. unfold midnight, days_of.
  apply Z.mul_le_mono_nonneg_r; [discriminate|].
  apply Z.div_le_mono; [reflexivity | exact H].
Qed.

(** X7: with the date input left at its default, a row passes the range
    step exactly when it has a date not after midnight of the last observed
    day: the rows of the last day that carry a time of day are left out.
    When every date is a midnight, every dated row passes. *)
Theorem default_range_keeps (df : list Row) (f : FilterSpec) :
  default_filters df = Some f ->
  (forall r,
      In r (filter_date (start_date f) (end_date f) df)
      <-> In r df
          /\ exists t hi, date r = Some t /\ max_date df = Some hi
                          /\ t <= midnight (days_of hi))
  /\ ((forall r t, In r df -> date r = Some t -> t = midnight (days_of t)) ->
      filter_date (start_date f) (end_date f) df
      = filter (fun r => negb (isnull (date r))) df).
Proof.
  unfold default_filters, default_date_input.
  destruct (min_date df) as [lo|] eqn:Hlo; [|discriminate].
  destruct (max_date df) as [hi|] eqn:Hhi; [|discriminate].
  simpl. intros H. injection H as <-. simpl.
  assert (Hk : forall r,
             In r (filter_date (Some (midnight (days_of lo)))
                     (Some (midnight (days_of hi))) df)
             <-> In r df
                 /\ exists t hi0, date r = Some t /\ Some hi = Some hi0
                                  /\ t <= midnight (days_of hi0)).
  { intros r. rewrite filter_date_In_iff. split.
    - intros (Hin & t & a & b & Ht & Ea & Eb & _ & Hle).
      injection Eb as <-. split; [exact Hin|]. exists t, hi. auto.
    - intros (Hin & t & hi0 & Ht & E & Hle). injection E as <-.
      split; [exact Hin|].
      exists t, (midnight (days_of lo)), (midnight (days_of hi)).
      repeat split; try assumption.
      destruct (min_date_le df r t Hin Ht) as (lo' & E1 & H1).
      rewrite Hlo in E1. injection E1 as <-.
      pose proof (midnight_days_of_le lo). lia. }
  split; [exact Hk|].
  intros Hmid. unfold filter_date. apply filter_ext_in. intros r Hr.
  destruct (date r) as [t|] eqn:Ht; simpl; [|reflexivity].
  destruct (min_date_le df r t Hr Ht) as (lo' & E1 & H1).
  destruct (max_date_ge df r t Hr Ht) as (hi' & E2 & H2).
  rewrite Hlo in E1. rewrite Hhi in E2. injection E1 as <-. injection E2 as <-.
  apply andb_true_iff. split; apply Z.leb_le.
  - pose proof (midnight_days_of_le lo). lia.
  - rewrite (Hmid r t Hr Ht). apply midnight_mono, H2.
Qed.

Lemma default_range_keeps_witness :
  filter_date (Some (ymd 2024 1 1)) (Some (ymd 2024 1 2))
    (normalize raw_three)
  = filter (fun r => negb (isnull (date r))) (normalize raw_three).
Proof.
  destruct (default_range_keeps (normalize raw_three)
              {| start_date := Some (ymd 2024 1 1);
                 end_date := Some (ymd 2024 1 2);
                 selected_types := ["food"; "travel"]%string;
                 user_search := Some "All"%string |}) as (_ & H).
  - reflexivity.
  - apply H. intros r t [<- | [<- | [<- | []]]] E; injection E as <-;
      reflexivity.
Defined.

(** X8: the end of a range picked in the date input is the midnight that
    starts the end day.  A row stamped on the end day after midnight does not
    pass the range step, whatever the start is; a single picked day keeps only
    the rows stamped at its midnight. *)
Theorem end_day_is_its_midnight (df : list Row) (d0 d1 : Z) (rest : list Z)
  (r : Row) (t : Timestamp) :
  date r = Some t ->
  (days_of t = d1 -> t <> midnight d1 ->
   ~ In r (filter_date (fst (resolve_range df (DateSeq (d0 :: d1 :: rest))))
             (snd (resolve_range df (DateSeq (d0 :: d1 :: rest)))) df))
  /\ (In r (filter_date (fst (resolve_range df (DateOne d0)))
              (snd (resolve_range df (DateOne d0))) df) ->
      t = midnight d0)
  /\ (In r (filter_date (fst (resolve_range df (DateSeq [d0])))
              (snd (resolve_range df (DateSeq [d0]))) df) ->
      t = midnight d0).
Proof.
  intros Ht. simpl. repeat split.
  - intros Hd Hne Hin. apply filter_date_In in Hin.
    destruct Hin as (_ & t' & lo & hi & Et & _ & Ehi & _ & Hle).
    rewrite Ht in Et. injection Et as <-. injection Ehi as <-.
    pose proof (midnight_days_of_le t) as Hm. rewrite Hd in Hm. lia.
  - intros Hin. apply filter_date_In in Hin.
    destruct Hin as (_ & t' & lo & hi & Et & Elo & Ehi & Hlo & Hhi).
    rewrite Ht in Et. injection Et as <-.
    injection Elo as <-. injection Ehi as <-. lia.
  - intros Hin. apply filter_date_In in Hin.
    destruct Hin as (_ & t' & lo & hi & Et & Elo & Ehi & Hlo & Hhi).
    rewrite Ht in Et. injection Et as <-.
    injection Elo as <-. injection Ehi as <-. lia.
Qed.

Lemma end_day_is_its_midnight_witness :
  ~ In (add_derived (coerce_row
          (raw_row (Parsed (ymd 2024 1 2 + 36000000000000)) (Parsed 2%Q) None)))
       (filter_date (Some (ymd 2024 1 1)) (Some (ymd 2024 1 2))
          (normalize raw_timed)).
Proof.
  apply (end_day_is_its_midnight (normalize raw_timed)
           (days_of (ymd 2024 1 1)) (days_of (ymd 2024 1 2)) []
           (add_derived (coerce_row
              (raw_row (Parsed (ymd 2024 1 2 + 36000000000000)) (Parsed 2%Q)
                 None)))
           (ymd 2024 1 2 + 36000000000000)).
  - reflexivity.
  - reflexivity.
  - discriminate.
Defined.

(** ** Key figures (lines 139-147) *)

Lemma add_amount_plus (s : Q) (a : option Q) :
  (add_amount s a == s + or_zero a)%Q.
Proof. destruct a; simpl; ring. Qed.

Lemma nansum_from (l : list (option Q)) (s : Q) :
  (fold_left add_amount l s == s + nansum l)%Q.
Proof.
  unfold nansum. revert s. induction l as [|a l IH]; intros s; simpl.
  - ring.
  - rewrite (IH (add_amount s a)), (IH (add_amount 0 a)).
    rewrite !add_amount_plus. ring.
Qed.

Lemma upsert_sum {K : Type} (cmp : K -> K -> comparison) (k : K)
  (a : option Q) (acc : list (K * Q)) :
  (sum_values (upsert cmp k a acc) == sum_values acc + or_zero a)%Q.
Proof.
  unfold sum_values.
  induction acc as [|[h s] rest IH]; cbn [upsert map fold_right snd].
  - rewrite add_amount_plus. ring.
  - destruct (cmp k h); cbn [map fold_right snd].
    + rewrite add_amount_plus. ring.
    + rewrite add_amount_plus. ring.
    + rewrite IH. ring.
Qed.

Lemma group_fold_sum {K : Type} (cmp : K -> K -> comparison)
  (key : Row -> option K) (df : list Row) (acc : list (K * Q)) :
  (sum_values (fold_left (group_step cmp key) df acc)
   == sum_values acc
      + nansum (map amount (filter (fun r => negb (isnull (key r))) df)))%Q.
Proof.
  revert acc. induction df as [|r df IH]; intros acc; cbn [fold_left filter].
  - unfold nansum. simpl. ring.
  - rewrite IH. unfold group_step.
    destruct (key r) as [k|]; cbn [isnull negb map].
    + rewrite upsert_sum. unfold nansum at 2. cbn [fold_left].
      rewrite nansum_from, add_amount_plus. ring.
    + reflexivity.
Qed.

Lemma groupby_sum_adds_up {K : Type} (cmp : K -> K -> comparison)
  (key : Row -> option K) (df : list Row) :
  (sum_q (map snd (groupby_sum cmp key df))
   == nansum (map amount (filter (fun r => negb (isnull (key r))) df)))%Q.
Proof.
  unfold sum_q. rewrite fold_left_Qplus.
  change (fold_right Qplus 0 (map snd (groupby_sum cmp key df)))%Q
    with (sum_values (groupby_sum cmp key df)).
  unfold groupby_sum. rewrite group_fold_sum. unfold sum_values. simpl. ring.
Qed.

Lemma filtered_rows_dated (df d : list Row) (f : FilterSpec) :
  filtered df f = Ran d ->
  d = apply_filters df f /\ d <> []
  /\ forall r, In r d -> date r <> None.
Proof.
  unfold filtered. intros H.
  destruct (apply_filters df f) as [|r rest] eqn:E; [discriminate|].
  injection H as <-. split; [reflexivity | split; [discriminate|]].
  intros r' Hr'. rewrite <- E in Hr'.
  apply apply_filters_In, filter_date_In in Hr'.
  destruct Hr' as (_ & t & _ & _ & Ht & _). congruence.
Qed.

(** X9: the daily totals add up to the sum of the amounts of the rows that
    have a date; on a frame that passed the filters this is the total spend
    of line 139. *)
Theorem daily_totals_add_up :
  (forall df : list Row,
      (sum_q (map snd (daily_group df))
       == nansum (map amount (filter (fun r => negb (isnull (date r))) df)))%Q)
  /\ (forall (df d : list Row) (f : FilterSpec),
        filtered df f = Ran d ->
        (sum_q (map snd (daily_group d)) == total_spend d)%Q).
Proof.
  split.
  - intros df. apply groupby_sum_adds_up.
  - intros df d f H. destruct (filtered_rows_dated df d f H) as (_ & _ & Hd).
    unfold daily_group. rewrite groupby_sum_adds_up. unfold total_spend.
    rewrite filter_all; [reflexivity|].
    intros r Hr. specialize (Hd r Hr). destruct (date r); [reflexivity|].
    congruence.
Qed.

Lemma daily_totals_add_up_witness :
  (sum_q (map snd (daily_group (normalize raw_three)))
   == total_spend (normalize raw_three))%Q.
Proof.
  apply (proj2 daily_totals_add_up (normalize raw_three)
           (normalize raw_three)
           {| start_date := Some (ymd 2024 1 1);
              end_date := Some (ymd 2024 1 2);
              selected_types := []; user_search := None |}).
  reflexivity.
Defined.

Lemma daily_group_nonempty (d : list Row) :
  d <> [] -> (forall r, In r d -> date r <> None) -> daily_group d <> [].
Proof.
  intros Hne Hd. destruct d as [|r rest]; [congruence|].
  destruct (date r) as [t|] eqn:Ht;
    [|exfalso; apply (Hd r); [left; reflexivity | exact Ht]].
  assert (Hin : In t (map fst (daily_group (r :: rest)))).
  { apply (groupby_sum_keys Z.compare Z.compare_eq_iff).
    rewrite <- Ht. left. reflexivity. }
  intros E. rewrite E in Hin. contradiction.
Qed.

(** X10: on a frame that passed the filters there is at least one day, so
    the fall-backs of lines 141 and 145-147 are not taken: the average is the
    mean of the daily totals, its product with the number of days is the total
    spend, and a best day exists. *)
Theorem key_figures_defined (df d : list Row) (f : FilterSpec) :
  filtered df f = Ran d ->
  daily_group d <> []
  /\ mean (map snd (daily_group d)) = Some (avg_daily d)
  /\ (avg_daily d * inject_Z (Z.of_nat (List.length (daily_group d)))
      == total_spend d)%Q
  /\ best_day d <> None.
Proof.
  intros H. destruct (filtered_rows_dated df d f H) as (_ & Hne & Hd).
  pose proof (daily_group_nonempty d Hne Hd) as Hg.
  assert (Hsum : (sum_q (map snd (daily_group d)) == total_spend d)%Q).
  { unfold daily_group. rewrite groupby_sum_adds_up. unfold total_spend.
    rewrite filter_all; [reflexivity|].
    intros r Hr. specialize (Hd r Hr). destruct (date r); [reflexivity|].
    congruence. }
  unfold avg_daily, best_day.
  destruct (daily_group d) as [|p t] eqn:E; [congruence|].
  split; [discriminate | split; [reflexivity | split; [|discriminate]]].
  cbn [map mean]. rewrite <- Hsum. cbn [map].
  assert (El : List.length (snd p :: map snd t) = List.length (p :: t))
    by (simpl; rewrite length_map; reflexivity).
  rewrite El. field. intros E0.
  pose proof (count_pos (snd p) (map snd t)) as Hp.
  rewrite El, E0 in Hp. apply (Qlt_irrefl 0), Hp.
Qed.

Lemma key_figures_defined_witness :
  daily_group (normalize raw_three) <> []
  /\ best_day (normalize raw_three) <> None.
Proof.
  destruct (key_figures_defined (normalize raw_three) (normalize raw_three)
              {| start_date := Some (ymd 2024 1 1);
                 end_date := Some (ymd 2024 1 2);
                 selected_types := []; user_search := None |})
    as (H1 & _ & _ & H4).
  - reflexivity.
  - split; assumption.
Defined.

Lemma Qle_bool_false (a b : Q) : Qle_bool a b = false -> (b < a)%Q.
Proof.
  intros H. apply Qnot_le_lt. intros Hle.
  apply Qle_bool_iff in Hle. congruence.
Qed.

Lemma strongly_sorted_tail {A : Type} (R : A -> A -> Prop) (l1 l2 : list A) :
  StronglySorted R (l1 ++ l2) -> StronglySorted R l2.
Proof.
  induction l1 as [|a l1 IH]; simpl; intros H; [exact H|].
  apply IH. inversion H; assumption.
Qed.

Lemma idxmax_from_first (l : list (Timestamp * Q)) (best : Timestamp * Q) :
  exists s l1 l2,
    best :: l = l1 ++ (idxmax_from best l, s) :: l2
    /\ Forall (fun q => snd q < s)%Q l1
    /\ Forall (fun q => snd q <= s)%Q l2.
Proof.
  revert best. induction l as [|p t IH]; intros best; cbn [idxmax_from].
  - exists (snd best), [], []. destruct best. simpl. repeat constructor.
  - destruct (Qle_bool (snd p) (snd best)) eqn:E.
    + apply Qle_bool_iff in E.
      destruct (IH best) as (s & l1 & l2 & Hl & H1 & H2).
      destruct l1 as [|b l1'].
      * simpl in Hl. injection Hl as Hb Ht.
        pose proof (f_equal snd Hb) as Es. simpl in Es.
        exists s, [], (p :: l2). simpl.
        split; [rewrite <- Hb, <- Ht; reflexivity | split; [constructor|]].
        constructor; [rewrite <- Es; exact E | exact H2].
      * simpl in Hl. injection Hl as Hb Ht. subst b.
        exists s, (best :: p :: l1'), l2. simpl.
        split; [do 2 f_equal; exact Ht | split; [|exact H2]].
        inversion H1 as [|? ? Hbs Hrest]; subst.
        constructor; [exact Hbs|]. constructor; [|exact Hrest].
        eapply Qle_lt_trans; [exact E | exact Hbs].
    + apply Qle_bool_false in E.
      destruct (IH p) as (s & l1 & l2 & Hl & H1 & H2).
      exists s, (best :: l1), l2. simpl.
      split; [f_equal; exact Hl | split; [|exact H2]].
      constructor; [|exact H1].
      destruct l1 as [|b l1'].
      * simpl in Hl. injection Hl as Hb _.
        pose proof (f_equal snd Hb) as Es. simpl in Es.
        rewrite <- Es. exact E.
      * simpl in Hl. injection Hl as Hb _. subst b.
        inversion H1; subst. eapply Qlt_trans; eassumption.
Qed.

Lemma Qmax_b_fold (t : list Q) (x : Q) :
  (x <= fold_left Qmax_b t x)%Q
  /\ Forall (fun y => y <= fold_left Qmax_b t x)%Q t
  /\ (fold_left Qmax_b t x = x \/ In (fold_left Qmax_b t x) t).
Proof.
  revert x. induction t as [|y t IH]; intros x; simpl.
  - split; [apply Qle_refl | split; [constructor | left; reflexivity]].
  - destruct (IH (Qmax_b x y)) as (H1 & H2 & H3).
    assert (Hx : (x <= Qmax_b x y)%Q /\ (y <= Qmax_b x y)%Q
                 /\ (Qmax_b x y = x \/ Qmax_b x y = y)).
    { unfold Qmax_b. destruct (Qle_bool x y) eqn:E.
      - apply Qle_bool_iff in E.
        split; [exact E | split; [apply Qle_refl | right; reflexivity]].
      - apply Qle_bool_false in E.
        split; [apply Qle_refl | split; [apply Qlt_le_weak, E|]].
        left. reflexivity. }
    destruct Hx as (Hx1 & Hx2 & Hx3).
    split; [eapply Qle_trans; eassumption | split].
    + constructor; [eapply Qle_trans; eassumption | exact H2].
    + destruct H3 as [H3 | H3]; [|right; right; exact H3].
      rewrite H3. destruct Hx3 as [-> | ->]; [left | right; left]; reflexivity.
Qed.

(** X11: the best day.  When there is at least one day, [best_day] is a day
    of the daily totals, its total is the maximum that [best_day_amt]
    reports, no day has a larger total, and among days with the same total it
    is the earliest. *)
Theorem best_day_is_first_maximum (df : list Row) :
  daily_group df <> [] ->
  exists d s,
    best_day df = Some d
    /\ In (d, s) (daily_group df)
    /\ (s == best_day_amt df)%Q
    /\ forall d' s', In (d', s') (daily_group df) ->
         (s' <= s)%Q /\ ((s' == s)%Q -> d <= d').
Proof.
  intros Hne. unfold best_day, best_day_amt.
  pose proof (daily_group_sorted df) as Hs.
  destruct (daily_group df) as [|p t]; [congruence|]. clear Hne.
  destruct (idxmax_from_first t p) as (s & l1 & l2 & Hl & H1 & H2).
  exists (idxmax_from p t), s. cbn [idxmax map series_max].
  assert (Hin : In (idxmax_from p t, s) (p :: t)).
  { rewrite Hl. apply in_or_app. right. left. reflexivity. }
  assert (Hall : forall d' s', In (d', s') (p :: t) ->
             (s' <= s)%Q /\ ((s' == s)%Q -> idxmax_from p t <= d')).
  { intros d' s' Hq. rewrite Hl in Hq, Hs.
    apply in_app_or in Hq. destruct Hq as [Hq | [Hq | Hq]].
    - rewrite Forall_forall in H1. specialize (H1 _ Hq). simpl in H1.
      split; [apply Qlt_le_weak, H1|].
      intros E. rewrite E in H1. exfalso. apply (Qlt_irrefl s), H1.
    - injection Hq as <- <-. split; [apply Qle_refl | lia].
    - rewrite Forall_forall in H2. specialize (H2 _ Hq). simpl in H2.
      split; [exact H2|]. intros _.
      rewrite map_app in Hs. apply strongly_sorted_tail in Hs.
      simpl in Hs. inversion Hs as [|? ? _ Hlt]; subst.
      rewrite Forall_forall in Hlt.
      assert (Hd : In d' (map fst l2)).
      { change d' with (fst (d', s')). apply in_map, Hq. }
      specialize (Hlt _ Hd). lia. }
  repeat split; try assumption.
  - destruct (Qmax_b_fold (map snd t) (snd p)) as (M1 & M2 & M3).
    apply Qle_antisym.
    + assert (Hm : In s (snd p :: map snd t)).
      { change (snd p :: map snd t) with (map snd (p :: t)).
        change s with (snd (idxmax_from p t, s)). apply in_map, Hin. }
      destruct Hm as [<- | Hm]; [exact M1|].
      rewrite Forall_forall in M2. apply M2, Hm.
    + assert (Hm : In (fold_left Qmax_b (map snd t) (snd p))
                     (map snd (p :: t))).
      { simpl. destruct M3 as [-> | M3]; auto. }
      apply in_map_iff in Hm. destruct Hm as ([d' s'] & Es & Hq).
      simpl in Es. rewrite <- Es. apply (Hall d' s' Hq).
  - apply (Hall d' s' H).
  - apply (Hall d' s' H).
Qed.

Lemma best_day_is_first_maximum_witness :
  exists d s,
    best_day (normalize raw_three) = Some d
    /\ In (d, s) (daily_group (normalize raw_three))
    /\ (s == best_day_amt (normalize raw_three))%Q
    /\ forall d' s', In (d', s') (daily_group (normalize raw_three)) ->
         (s' <= s)%Q /\ ((s' == s)%Q -> d <= d').
Proof.
  apply (best_day_is_first_maximum (normalize raw_three)). discriminate.
Defined.

(** ** Sums by category, by user and by day and category (lines 183, 236,
    248) *)

Lemma string_compare_eq (a b : string) : String.compare a b = Eq <-> a = b.
Proof. apply OrderedTypeEx.String_as_OT.cmp_eq. Qed.

Lemma string_compare_lt_trans (a b c : string) :
  String.compare a b = Lt -> String.compare b c = Lt ->
  String.compare a c = Lt.
Proof.
  intros H1 H2.
  apply OrderedTypeEx.String_as_OT.cmp_lt in H1, H2.
  apply OrderedTypeEx.String_as_OT.cmp_lt.
  eapply OrderedTypeEx.String_as_OT.lt_trans; eassumption.
Qed.

Lemma string_compare_gt_lt (a b : string) :
  String.compare a b = Gt -> String.compare b a = Lt.
Proof.
  intros H. rewrite String.compare_antisym, H. reflexivity.
Qed.

Section Lexicographic.
Context {A B : Type} (ca : A -> A -> comparison) (cb : B -> B -> comparison).
Hypothesis ca_eq : forall a b, ca a b = Eq <-> a = b.
Hypothesis ca_lt_trans :
  forall a b c, ca a b = Lt -> ca b c = Lt -> ca a c = Lt.
Hypothesis ca_gt : forall a b, ca a b = Gt -> ca b a = Lt.
Hypothesis cb_eq : forall a b, cb a b = Eq <-> a = b.
Hypothesis cb_lt_trans :
  forall a b c, cb a b = Lt -> cb b c = Lt -> cb a c = Lt.
Hypothesis cb_gt : forall a b, cb a b = Gt -> cb b a = Lt.

Lemma lex_compare_eq (x y : A * B) : lex_compare ca cb x y = Eq <-> x = y.
Proof.
  destruct x as [a1 b1], y as [a2 b2]. unfold lex_compare. simpl.
  destruct (ca a1 a2) eqn:E.
  - apply ca_eq in E. subst a2. rewrite cb_eq. split; congruence.
  - split; [discriminate|]. intros H. injection H as -> ->.
    rewrite (proj2 (ca_eq a2 a2) eq_refl) in E. discriminate.
  - split; [discriminate|]. intros H. injection H as -> ->.
    rewrite (proj2 (ca_eq a2 a2) eq_refl) in E. discriminate.
Qed.

Lemma lex_compare_lt_trans (x y z : A * B) :
  lex_compare ca cb x y = Lt -> lex_compare ca cb y z = Lt ->
  lex_compare ca cb x z = Lt.
Proof.
  destruct x as [a1 b1], y as [a2 b2], z as [a3 b3].
  unfold lex_compare. simpl.
  destruct (ca a1 a2) eqn:E1; try discriminate;
    destruct (ca a2 a3) eqn:E2; try discriminate; intros H1 H2.
  - apply ca_eq in E1, E2. subst a2 a3.
    rewrite (proj2 (ca_eq a1 a1) eq_refl). eapply cb_lt_trans; eassumption.
  - apply ca_eq in E1. subst a2. rewrite E2. reflexivity.
  - apply ca_eq in E2. subst a3. rewrite E1. reflexivity.
  - rewrite (ca_lt_trans _ _ _ E1 E2). reflexivity.
Qed.

Lemma lex_compare_gt_lt (x y : A * B) :
  lex_compare ca cb x y = Gt -> lex_compare ca cb y x = Lt.
Proof.
  destruct x as [a1 b1], y as [a2 b2]. unfold lex_compare. simpl.
  destruct (ca a1 a2) eqn:E; try discriminate; intros H.
  - apply ca_eq in E. subst a2. rewrite (proj2 (ca_eq a1 a1) eq_refl).
    apply cb_gt, H.
  - rewrite (ca_gt _ _ E). reflexivity.
Qed.
End Lexicographic.

Lemma has_key_label (get : Row -> option string) (s : string) (r : Row) :
  has_key String.compare get s r = eq_label (get r) s.
Proof.
  unfold has_key, eq_label. destruct (get r) as [k|]; [|reflexivity].
  destruct (String.compare k s) eqn:E; symmetry.
  - apply String.eqb_eq, string_compare_eq, E.
  - apply String.eqb_neq. intros ->. rewrite string_compare_refl in E.
    discriminate.
  - apply String.eqb_neq. intros ->. rewrite string_compare_refl in E.
    discriminate.
Qed.

Lemma label_sums (get : Row -> option string) (df : list Row) :
  StronglySorted (fun a b => String.compare a b = Lt)
    (map fst (groupby_sum String.compare get df))
  /\ NoDup (map fst (groupby_sum String.compare get df))
  /\ (forall s, In s (map fst (groupby_sum String.compare get df))
                <-> In (Some s) (map get df))
  /\ (forall s v, In (s, v) (groupby_sum String.compare get df) ->
        v = nansum (map amount (filter (fun r => eq_label (get r) s) df))).
Proof.
  assert (Hs : StronglySorted (key_lt String.compare)
                 (map fst (groupby_sum String.compare get df))).
  { apply (groupby_sum_sorted String.compare string_compare_eq
             string_compare_lt_trans string_compare_gt_lt). }
  split; [exact Hs | split; [| split]].
  - apply (sorted_keys_NoDup String.compare string_compare_eq), Hs.
  - intros s. apply (groupby_sum_keys String.compare string_compare_eq).
  - intros s v Hin.
    rewrite (groupby_sum_total String.compare string_compare_eq
               string_compare_lt_trans string_compare_gt_lt get df s v Hin).
    f_equal. f_equal. apply filter_ext. intros r. apply has_key_label.
Qed.

(** X12: the sums by expense type of line 236 come in ascending order of the
    label, each type of the frame once and no other; the sum of a type is the
    sum of the amounts of its rows, and together the sums make the amount of
    the rows that have a type. *)
Theorem category_summary_totals (df : list Row) :
  StronglySorted (fun a b => String.compare a b = Lt) (map fst (summary df))
  /\ NoDup (map fst (summary df))
  /\ (forall s, In s (map fst (summary df))
                <-> In (Some s) (map expense_type df))
  /\ (forall s v, In (s, v) (summary df) ->
        v = nansum (map amount
                      (filter (fun r => eq_label (expense_type r) s) df)))
  /\ (sum_q (map snd (summary df))
      == nansum (map amount
                   (filter (fun r => negb (isnull (expense_type r))) df)))%Q.
Proof.
  destruct (label_sums expense_type df) as (H1 & H2 & H3 & H4).
  repeat split; try assumption; try apply H3.
  apply groupby_sum_adds_up.
Qed.

Lemma category_summary_totals_witness :
  150%Q
  = nansum (map amount
              (filter (fun r => eq_label (expense_type r) "food")
                 (normalize raw_three))).
Proof.
  destruct (category_summary_totals (normalize raw_three))
    as (_ & _ & _ & H & _).
  apply H. left. reflexivity.
Defined.

Lemma insert_desc_perm (p : string * Q) (l : list (string * Q)) :
  Permutation (insert_desc p l) (p :: l).
Proof.
  induction l as [|h t IH]; simpl.
  - apply Permutation_refl.
  - destruct (Qle_bool (snd h) (snd p)).
    + apply Permutation_refl.
    + eapply perm_trans; [apply perm_skip, IH | apply perm_swap].
Qed.

Lemma insert_desc_sorted (p : string * Q) (l : list (string * Q)) :
  Sorted amount_desc l -> Sorted amount_desc (insert_desc p l).
Proof.
  induction l as [|h t IH]; simpl; intros Hs.
  - repeat constructor.
  - destruct (Qle_bool (snd h) (snd p)) eqn:E.
    + constructor; [exact Hs|]. constructor. apply Qle_bool_iff, E.
    + apply Qle_bool_false in E.
      inversion Hs as [|? ? Hs' Hh]; subst.
      constructor; [apply IH, Hs'|].
      destruct t as [|h' t']; simpl.
      * constructor. apply Qlt_le_weak, E.
      * destruct (Qle_bool (snd h') (snd p)).
        -- constructor. apply Qlt_le_weak, E.
        -- inversion Hh; subst. constructor. assumption.
Qed.

Lemma sort_desc_perm (g : list (string * Q)) :
  Permutation (fold_right insert_desc [] g) g.
Proof.
  induction g as [|p t IH]; simpl.
  - constructor.
  - eapply perm_trans; [apply insert_desc_perm | apply perm_skip, IH].
Qed.

Lemma sort_desc_sorted (g : list (string * Q)) :
  Sorted amount_desc (fold_right insert_desc [] g).
Proof.
  induction g as [|p t IH]; simpl.
  - constructor.
  - apply insert_desc_sorted, IH.
Qed.

(** X13: the user table of line 248 holds the sums by user, one line per
    user of the frame with the sum of that user's amounts, in descending
    order of the sum: no line has a larger sum than a line above it. *)
Theorem user_table_descending (df : list Row) :
  Permutation (user_sum df) (groupby_sum String.compare user_id df)
  /\ StronglySorted amount_desc (user_sum df)
  /\ NoDup (map fst (user_sum df))
  /\ (forall u, In u (map fst (user_sum df)) <-> In (Some u) (map user_id df))
  /\ (forall u v, In (u, v) (user_sum df) ->
        v = nansum (map amount
                      (filter (fun r => eq_label (user_id r) u) df))).
Proof.
  destruct (label_sums user_id df) as (_ & H2 & H3 & H4).
  assert (P : Permutation (user_sum df)
                (groupby_sum String.compare user_id df))
    by apply sort_desc_perm.
  split; [exact P | split; [| split; [| split]]].
  - apply Sorted_StronglySorted.
    + intros a b c Hab Hbc. unfold amount_desc in *.
      eapply Qle_trans; eassumption.
    + apply sort_desc_sorted.
  - eapply Permutation_NoDup; [|exact H2].
    apply Permutation_map, Permutation_sym, P.
  - intros u. rewrite <- H3. split; apply Permutation_in.
    + apply Permutation_map, P.
    + apply Permutation_map, Permutation_sym, P.
  - intros u v Hin. apply H4. apply (Permutation_in _ P Hin).
Qed.

Lemma user_table_descending_witness :
  12%Q
  = nansum (map amount
              (filter (fun r => eq_label (user_id r) "u2")
                 (normalize raw_users))).
Proof.
  destruct (user_table_descending (normalize raw_users))
    as (_ & _ & _ & _ & H).
  apply H. left. reflexivity.
Defined.

Lemma date_type_compare_eq (x y : Timestamp * string) :
  compare_date_type x y = Eq <-> x = y.
Proof.
  apply (lex_compare_eq Z.compare String.compare Z.compare_eq_iff
           string_compare_eq).
Qed.

Lemma date_type_compare_lt_trans (x y z : Timestamp * string) :
  compare_date_type x y = Lt -> compare_date_type y z = Lt ->
  compare_date_type x z = Lt.
Proof.
  apply (lex_compare_lt_trans Z.compare String.compare Z.compare_eq_iff
           Zcompare_lt_trans string_compare_lt_trans).
Qed.

Lemma date_type_compare_gt_lt (x y : Timestamp * string) :
  compare_date_type x y = Gt -> compare_date_type y x = Lt.
Proof.
  apply (lex_compare_gt_lt Z.compare String.compare Z.compare_eq_iff
           Zcompare_gt_lt string_compare_gt_lt).
Qed.

Lemma has_key_date_type (d : Timestamp) (ty : string) (r : Row) :
  has_key compare_date_type date_and_type (d, ty) r
  = on_day_type d ty r.
Proof.
  unfold has_key, on_day_type, date_and_type, compare_date_type.
  destruct (date r) as [x|]; [|reflexivity].
  destruct (expense_type r) as [s|]; simpl; [|apply eq_sym, andb_false_r].
  destruct (x ?= d) eqn:E.
  - apply Z.compare_eq_iff in E. subst x. rewrite Z.eqb_refl. simpl.
    destruct (String.compare s ty) eqn:E2; symmetry.
    + apply String.eqb_eq, string_compare_eq, E2.
    + apply String.eqb_neq. intros ->. rewrite string_compare_refl in E2.
      discriminate.
    + apply String.eqb_neq. intros ->. rewrite string_compare_refl in E2.
      discriminate.
  - rewrite Z.compare_lt_iff in E.
    destruct (Z.eqb_spec x d); [lia | reflexivity].
  - rewrite Z.compare_gt_iff in E.
    destruct (Z.eqb_spec x d); [lia | reflexivity].
Qed.

(** X14: the sums by day and expense type of line 183 come in ascending
    order of the day, then of the type; there is one line for each pair of a
    day and a type that some row carries, and none for rows without a date or
    a type; the sum of a line is the sum of the amounts of the rows of that
    day and type. *)
Theorem et_daily_totals (df : list Row) :
  StronglySorted (fun a b => compare_date_type a b = Lt)
    (map fst (et_daily df))
  /\ NoDup (map fst (et_daily df))
  /\ (forall d ty,
        In (d, ty) (map fst (et_daily df))
        <-> exists r, In r df /\ date r = Some d /\ expense_type r = Some ty)
  /\ (forall d ty v, In (d, ty, v) (et_daily df) ->
        v = nansum (map amount (filter (on_day_type d ty) df)))
  /\ (sum_q (map snd (et_daily df))
      == nansum (map amount
                   (filter (fun r => negb (isnull (date_and_type r))) df)))%Q.
Proof.
  assert (Hs : StronglySorted (key_lt compare_date_type)
                 (map fst (et_daily df))).
  { apply (groupby_sum_sorted compare_date_type date_type_compare_eq
             date_type_compare_lt_trans date_type_compare_gt_lt). }
  split; [exact Hs | split; [| split; [| split]]].
  - apply (sorted_keys_NoDup compare_date_type date_type_compare_eq), Hs.
  - intros d ty. unfold et_daily.
    rewrite (groupby_sum_keys compare_date_type date_type_compare_eq).
    rewrite in_map_iff. split.
    + intros (r & Hk & Hr). exists r. split; [exact Hr|].
      unfold date_and_type in Hk.
      destruct (date r); [|discriminate].
      destruct (expense_type r); [|discriminate].
      injection Hk as -> ->. auto.
    + intros (r & Hr & Hd & Ht). exists r. split; [|exact Hr].
      unfold date_and_type. rewrite Hd, Ht. reflexivity.
  - intros d ty v Hin.
    rewrite (groupby_sum_total compare_date_type date_type_compare_eq
               date_type_compare_lt_trans date_type_compare_gt_lt
               date_and_type df (d, ty) v Hin).
    f_equal. f_equal. apply filter_ext. intros r. apply has_key_date_type.
  - apply groupby_sum_adds_up.
Qed.

Lemma et_daily_totals_witness :
  150%Q
  = nansum (map amount
              (filter (on_day_type (ymd 2024 1 1) "food")
                 (normalize raw_three))).
Proof.
  destruct (et_daily_totals (normalize raw_three)) as (_ & _ & _ & H & _).
  apply H. left. reflexivity.
Defined.

(** ** Moving average and outlier rule, further (lines 169, 217-219) *)

Lemma sum_bounds (lo hi : Q) (l : list Q) :
  Forall (fun x => lo <= x /\ x <= hi)%Q l ->
  (inject_Z (Z.of_nat (List.length l)) * lo <= fold_right Qplus 0 l)%Q
  /\ (fold_right Qplus 0 l <= inject_Z (Z.of_nat (List.length l)) * hi)%Q.
Proof.
  induction 1 as [|x l [Hlo Hhi] Hl [IH1 IH2]]; cbn [fold_right List.length].
  - change (inject_Z (Z.of_nat 0)) with 0%Q. split; Lqa.lra.
  - rewrite Nat2Z.inj_succ. unfold Z.succ. rewrite inject_Z_plus.
    change (inject_Z 1) with 1%Q.
    set (n := inject_Z (Z.of_nat (List.length l))) in *.
    set (s := fold_right Qplus 0%Q l) in *.
    split; Lqa.lra.
Qed.

Lemma mean_bounds (lo hi m : Q) (l : list Q) :
  Forall (fun x => lo <= x /\ x <= hi)%Q l ->
  mean l = Some m -> (lo <= m /\ m <= hi)%Q.
Proof.
  intros Hall Hm. destruct l as [|x l]; [discriminate|].
  simpl in Hm. injection Hm as <-.
  destruct (sum_bounds lo hi (x :: l) Hall) as [H1 H2].
  pose proof (count_pos x l) as Hp.
  unfold sum_q. rewrite fold_left_Qplus, Qplus_0_l. split.
  - apply Qle_shift_div_l; [exact Hp|]. rewrite Qmult_comm. exact H1.
  - apply Qle_shift_div_r; [exact Hp|]. rewrite Qmult_comm. exact H2.
Qed.

Lemma window_at_incl (l : list Q) (i : nat) (x : Q) :
  In x (window_at l i) -> In x l.
Proof.
  unfold window_at. intros H.
  rewrite <- (firstn_skipn (i - 6) l). apply in_or_app. right.
  rewrite <- (firstn_skipn (i + 1 - (i - 6)) (skipn (i - 6) l)).
  apply in_or_app. left. exact H.
Qed.

(** X15: the moving average has a value at every day, and the value stays
    between the smallest and the largest daily total: bounds that hold for
    all totals hold for every average. *)
Theorem moving_average_within_bounds (d : list (Timestamp * Q)) (lo hi : Q) :
  (forall p, In p d -> (lo <= snd p /\ snd p <= hi)%Q) ->
  Forall (fun o => exists m, o = Some m /\ (lo <= m /\ m <= hi)%Q)
    (seven_day_avg d).
Proof.
  intros Hb. apply Forall_forall. intros o Ho.
  apply (In_nth _ _ None) in Ho. destruct Ho as (i & Hi & Hn).
  unfold seven_day_avg in *. rewrite rolling_mean_length in Hi.
  rewrite rolling_mean_nth in Hn by exact Hi.
  rewrite lastn_firstn_window in Hn by exact Hi.
  destruct (mean_arithmetic _ (window_at_nonempty _ i Hi)) as (m & Hm & _).
  exists m. split; [congruence|].
  apply (mean_bounds lo hi m (window_at (map snd d) i)); [|exact Hm].
  apply Forall_forall. intros x Hx. apply window_at_incl in Hx.
  apply in_map_iff in Hx. destruct Hx as (p & <- & Hp). apply Hb, Hp.
Qed.

Lemma moving_average_within_bounds_witness :
  Forall (fun o => exists m, o = Some m /\ (10 <= m /\ m <= 150)%Q)
    (seven_day_avg (daily (normalize raw_three))).
Proof.
  apply (moving_average_within_bounds (daily (normalize raw_three)) 10 150).
  intros p [<- | [<- | []]]; split; discriminate.
Defined.

(** X16: the outlier rule is monotone in the amount.  If a day is flagged,
    every amount at least as large is flagged too. *)
Theorem outlier_rule_monotone (l : list Q) (x y : Q) :
  ge_2 (z_score l x) = true -> (x <= y)%Q -> ge_2 (z_score l y) = true.
Proof.
  rewrite !ge_2_exact. unfold is_outlier_exact.
  destruct (mean l) as [m|]; [|discriminate].
  destruct (variance0 l) as [v|]; [|discriminate].
  intros H Hxy. apply andb_true_iff in H. destruct H as [H H4].
  apply andb_true_iff in H. destruct H as [Hv H0].
  apply Qle_bool_iff in H0, H4.
  rewrite Hv. simpl.
  apply andb_true_iff. split; apply Qle_bool_iff.
  - Lqa.lra.
  - set (a := (x - m)%Q) in *. set (b := (y - m)%Q) in *.
    assert (Hab : (a <= b)%Q) by (unfold a, b; Lqa.lra).
    Lqa.nra.
Qed.

Lemma outlier_rule_monotone_witness :
  ge_2 (z_score [10; 10; 10; 10; 100]%Q 120%Q) = true.
Proof.
  apply (outlier_rule_monotone [10; 10; 10; 10; 100]%Q 100%Q 120%Q).
  - rewrite ge_2_exact. reflexivity.
  - discriminate.
Defined.

Lemma qlen_cons {A : Type} (x : A) (l : list A) :
  (qlen (x :: l) == qlen l + 1)%Q.
Proof.
  unfold qlen. cbn [List.length]. rewrite Nat2Z.inj_succ. unfold Z.succ.
  rewrite inject_Z_plus. reflexivity.
Qed.

Lemma qlen_nonneg {A : Type} (l : list A) : (0 <= qlen l)%Q.
Proof. unfold qlen, Qle. simpl. lia. Qed.

Lemma sumf_split (p : Q -> bool) (f : Q -> Q) (l : list Q) :
  (sumf (map f l)
   == sumf (map f (filter p l))
      + sumf (map f (filter (fun d => negb (p d)) l)))%Q.
Proof.
  unfold sumf. induction l as [|d l IH]; cbn [map filter fold_right].
  - ring.
  - destruct (p d); cbn [negb map fold_right]; rewrite IH; ring.
Qed.

Lemma qlen_split (p : Q -> bool) (l : list Q) :
  (qlen l == qlen (filter p l) + qlen (filter (fun d => negb (p d)) l))%Q.
Proof.
  induction l as [|d l IH]; cbn [filter].
  - reflexivity.
  - destruct (p d); cbn [negb]; rewrite !qlen_cons, IH; ring.
Qed.

Lemma sumf_sq_nonneg (l : list Q) : (0 <= sumf (map sq l))%Q.
Proof.
  unfold sumf. induction l as [|d l IH]; cbn [map fold_right].
  - Lqa.lra.
  - set (s := fold_right Qplus 0%Q (map sq l)) in *. unfold sq. Lqa.nra.
Qed.

(** Cauchy-Schwarz against the constant sequence. *)
Lemma sumf_square_le (l : list Q) :
  (sumf l * sumf l <= qlen l * sumf (map sq l))%Q.
Proof.
  induction l as [|d l IH].
  - unfold sumf, qlen. simpl. Lqa.lra.
  - pose proof (sumf_sq_nonneg l) as Hq. pose proof (qlen_nonneg l) as Hn.
    rewrite qlen_cons. unfold sumf in *. cbn [map fold_right].
    set (s := fold_right Qplus 0%Q l) in *.
    set (t := fold_right Qplus 0%Q (map sq l)) in *.
    set (n := qlen l) in *. unfold sq.
    assert (H2 : (0 <= (n * d - s) * (n * d - s))%Q)
      by (set (u := (n * d - s)%Q); Lqa.nra).
    destruct l as [|e l'].
    + assert (Es : (s == 0)%Q) by reflexivity.
      assert (Et : (t == 0)%Q) by reflexivity.
      assert (En : (n == 0)%Q) by reflexivity.
      clearbody s t n. Lqa.nra.
    + assert (Hn1 : (1 <= n)%Q).
      { unfold n. rewrite qlen_cons. pose proof (qlen_nonneg l'). Lqa.lra. }
      assert (H3 : (n * (2 * s * d) <= n * (n * (d * d) + t))%Q) by Lqa.nra.
      assert (H4 : (2 * s * d <= n * (d * d) + t)%Q) by Lqa.nra.
      Lqa.nra.
Qed.

Lemma spikes_lower (c : Q) (l : list Q) :
  (0 <= c)%Q ->
  Forall (fun d => 0 <= d /\ c <= d * d)%Q l ->
  (0 <= sumf l)%Q
  /\ (c * (qlen l * qlen l) <= sumf l * sumf l)%Q
  /\ (c * qlen l <= sumf (map sq l))%Q.
Proof.
  intros Hc. induction 1 as [|d l [Hd Hcd] Hl (IH1 & IH2 & IH3)].
  - assert (E : (qlen (@nil Q) == 0)%Q) by reflexivity.
    unfold sumf. cbn [map fold_right]. rewrite E. repeat split; Lqa.lra.
  - pose proof (qlen_nonneg l) as Hn.
    rewrite qlen_cons. unfold sumf in *. cbn [map fold_right].
    set (s := fold_right Qplus 0%Q l) in *.
    set (t := fold_right Qplus 0%Q (map sq l)) in *.
    set (n := qlen l) in *. unfold sq.
    assert (Hx : (c * n <= d * s)%Q).
    { assert (Ha : (0 <= c * n)%Q) by Lqa.nra.
      assert (Hb : (0 <= d * s)%Q) by Lqa.nra.
      assert (Hsq : ((c * n) * (c * n) <= (d * s) * (d * s))%Q).
      { assert (E1 : (c * (c * (n * n)) <= c * (s * s))%Q) by Lqa.nra.
        assert (E2 : (c * (s * s) <= (d * d) * (s * s))%Q) by Lqa.nra.
        Lqa.nra. }
      Lqa.nra. }
    repeat split; Lqa.nra.
Qed.

Lemma sumf_deviations (m : Q) (l : list Q) :
  (sumf (map (fun x => x - m) l) == sumf l - qlen l * m)%Q.
Proof.
  induction l as [|x l IH].
  - assert (E : (qlen (@nil Q) == 0)%Q) by reflexivity.
    unfold sumf. cbn [map fold_right]. rewrite E. ring.
  - rewrite qlen_cons. unfold sumf in *. cbn [map fold_right].
    rewrite IH. ring.
Qed.

Lemma qlen_pos (x : Q) (l : list Q) : (0 < qlen (x :: l))%Q.
Proof. apply count_pos. Qed.

Lemma mean_times_count (l : list Q) (m : Q) :
  mean l = Some m -> (qlen l * m == sumf l)%Q.
Proof.
  destruct l as [|x l]; [discriminate|].
  change (mean (x :: l)) with (Some (sum_q (x :: l) / qlen (x :: l))%Q).
  intros H. injection H as <-. unfold sum_q. rewrite fold_left_Qplus.
  pose proof (qlen_pos x l) as Hp. unfold sumf.
  set (n := qlen (x :: l)) in *.
  set (s := fold_right Qplus 0%Q (x :: l)) in *.
  clearbody n s. field. intros E. rewrite E in Hp.
  apply (Qlt_irrefl 0), Hp.
Qed.

Lemma variance_times_count (l : list Q) (m v : Q) :
  mean l = Some m -> variance0 l = Some v ->
  (v * qlen l == sumf (map sq (map (fun x => x - m) l)))%Q.
Proof.
  intros Hm Hv. unfold variance0 in Hv. rewrite Hm in Hv.
  fold (qlen l) in Hv. injection Hv as <-. rewrite map_map.
  destruct l as [|x l]; [discriminate|].
  unfold sum_q. rewrite fold_left_Qplus.
  pose proof (qlen_pos x l) as Hp. unfold sumf, sq.
  set (n := qlen (x :: l)) in *.
  set (s := fold_right Qplus 0%Q
              (map (fun x0 => (x0 - m) * (x0 - m))%Q (x :: l))) in *.
  clearbody n s. field. intros E. rewrite E in Hp.
  apply (Qlt_irrefl 0), Hp.
Qed.

Lemma spikes_at_most_a_fifth (v : Q) (ds : list Q) :
  (0 < v)%Q -> ds <> [] ->
  (sumf ds == 0)%Q ->
  (v * qlen ds == sumf (map sq ds))%Q ->
  (5 * qlen (filter (spike v) ds) <= qlen ds)%Q.
Proof.
  intros Hv Hne H0 Hvar.
  assert (Hsp : Forall (fun d => 0 <= d /\ 4 * v <= d * d)%Q
                  (filter (spike v) ds)).
  { apply Forall_forall. intros d Hd. apply filter_In in Hd.
    destruct Hd as [_ Hd]. unfold spike in Hd.
    apply andb_true_iff in Hd. destruct Hd as [H1 H2].
    apply Qle_bool_iff in H1, H2. split; assumption. }
  assert (H4v : (0 <= 4 * v)%Q) by Lqa.lra.
  destruct (spikes_lower (4 * v) _ H4v Hsp) as (HD & HD2 & HSO).
  pose proof (sumf_square_le (filter (fun d => negb (spike v d)) ds)) as Hcs.
  pose proof (sumf_split (spike v) (fun d => d) ds) as Hs1.
  rewrite !map_id in Hs1.
  pose proof (sumf_split (spike v) sq ds) as Hs2.
  pose proof (qlen_split (spike v) ds) as Hn.
  pose proof (qlen_nonneg (filter (spike v) ds)) as Hk.
  pose proof (qlen_nonneg (filter (fun d => negb (spike v d)) ds)) as Hr.
  assert (Hpos : (0 < qlen ds)%Q).
  { destruct ds as [|d ds']; [congruence | apply qlen_pos]. }
  set (k := qlen (filter (spike v) ds)) in *.
  set (r := qlen (filter (fun d => negb (spike v d)) ds)) in *.
  set (n := qlen ds) in *.
  set (D := sumf (filter (spike v) ds)) in *.
  set (E := sumf (filter (fun d => negb (spike v d)) ds)) in *.
  set (SO := sumf (map sq (filter (spike v) ds))) in *.
  set (SR := sumf (map sq (filter (fun d => negb (spike v d)) ds))) in *.
  set (T := sumf (map sq ds)) in *. set (S := sumf ds) in *.
  clearbody k r n D E SO SR T S.
  assert (HE : (E * E == D * D)%Q).
  { assert (EE : (E == - D)%Q) by Lqa.lra. rewrite EE. ring. }
  assert (H1 : (r * (4 * v * k) <= r * SO)%Q) by Lqa.nra.
  assert (H2 : (4 * v * (k * k) <= r * SR)%Q) by Lqa.lra.
  assert (H3 : (4 * v * k * n <= r * (v * n))%Q).
  { assert (Ex : (r * (v * n) == r * SO + r * SR)%Q).
    { rewrite Hvar, Hs2. ring. }
    rewrite Ex.
    assert (Ey : (4 * v * k * n == r * (4 * v * k) + 4 * v * (k * k))%Q).
    { rewrite Hn. ring. }
    rewrite Ey. Lqa.lra. }
  assert (Hvn : (0 < v * n)%Q) by Lqa.nra.
  assert (H5 : (4 * k <= r)%Q).
  { apply Qnot_lt_le. intros Hlt.
    assert (Hc : (r * (v * n) < 4 * k * (v * n))%Q) by Lqa.nra.
    Lqa.lra. }
  Lqa.lra.
Qed.

Lemma length_filter_map {A : Type} (f : A -> bool) (l : list A) :
  List.length (filter (fun b : bool => b) (map f l))
  = List.length (filter f l).
Proof.
  induction l as [|x l IH]; simpl; [reflexivity|].
  destruct (f x); simpl; rewrite IH; reflexivity.
Qed.

Lemma filter_map_swap {A B : Type} (g : A -> B) (p : B -> bool) (l : list A) :
  filter p (map g l) = map g (filter (fun x => p (g x)) l).
Proof.
  induction l as [|x l IH]; simpl; [reflexivity|].
  destruct (p (g x)); simpl; rewrite IH; reflexivity.
Qed.

Lemma filter_none {A : Type} (l : list A) : filter (fun _ => false) l = [].
Proof. induction l; simpl; auto. Qed.

Lemma count_outliers_fifth (l : list Q) :
  (5 * count_outliers l <= List.length l)%nat.
Proof.
  unfold count_outliers. rewrite outlier_mask_exact, length_filter_map.
  unfold is_outlier_exact.
  destruct (mean l) as [m|] eqn:Hm; [|rewrite filter_none; simpl; lia].
  destruct (variance0 l) as [v|] eqn:Hv; [|rewrite filter_none; simpl; lia].
  destruct (Qeq_bool v 0) eqn:Ev; simpl; [rewrite filter_none; simpl; lia|].
  assert (Hvpos : (0 < v)%Q).
  { pose proof (variance0_nonneg l v Hv) as H0.
    apply Qle_lteq in H0. destruct H0 as [H0 | H0]; [exact H0|].
    symmetry in H0. apply Qeq_bool_iff in H0. congruence. }
  assert (Hne : map (fun x => x - m)%Q l <> []).
  { destruct l; [discriminate | discriminate]. }
  pose proof (spikes_at_most_a_fifth v (map (fun x => x - m)%Q l) Hvpos Hne)
    as H.
  assert (H0 : (sumf (map (fun x => x - m) l) == 0)%Q).
  { rewrite sumf_deviations, (mean_times_count l m Hm). ring. }
  assert (H1 : (v * qlen (map (fun x => x - m) l)
                == sumf (map sq (map (fun x => x - m) l)))%Q).
  { unfold qlen. rewrite length_map.
    apply (variance_times_count l m v Hm Hv). }
  specialize (H H0 H1).
  rewrite filter_map_swap in H. unfold qlen in H. rewrite !length_map in H.
  change 5%Q with (inject_Z 5) in H. rewrite <- inject_Z_mult in H.
  rewrite <- Zle_Qle in H.
  assert (E : filter (fun x => spike v (x - m)) l
              = filter (fun x => Qle_bool 0 (x - m)
                                 && Qle_bool (4 * v) ((x - m) * (x - m))) l)
    by reflexivity.
  rewrite <- E. lia.
Qed.

Lemma outliers_length (d : list (Timestamp * Q)) :
  List.length (outliers d) = count_outliers (map snd d).
Proof.
  unfold outliers, count_outliers. rewrite length_map.
  assert (H : forall (m : list bool),
             List.length m = List.length d ->
             List.length (filter snd (combine d m))
             = List.length (filter (fun b : bool => b) m)).
  { induction d as [|p d' IH]; intros [|b m] Hl; simpl in *; try lia.
    destruct b; simpl; rewrite IH by lia; reflexivity. }
  apply H. unfold outlier_mask, z_scores. rewrite !length_map. reflexivity.
Qed.

(** X17: at most one day in five is an outlier.  Whatever the daily totals
    are, the days kept by line 219 number at most a fifth of the days; with
    fewer than five days there is none. *)
Theorem at_most_a_fifth_flagged (d : list (Timestamp * Q)) :
  (5 * List.length (outliers d) <= List.length d)%nat
  /\ ((List.length d < 5)%nat -> outliers d = []).
Proof.
  assert (H : (5 * List.length (outliers d) <= List.length d)%nat).
  { rewrite outliers_length.
    pose proof (count_outliers_fifth (map snd d)) as H.
    rewrite length_map in H. exact H. }
  split; [exact H|].
  intros Hlt. destruct (outliers d) as [|p t]; [reflexivity|].
  simpl in H. lia.
Qed.

Lemma at_most_a_fifth_flagged_witness :
  outliers [(1, 10%Q); (2, 10%Q); (3, 100%Q)] = [].
Proof.
  apply (at_most_a_fifth_flagged [(1, 10%Q); (2, 10%Q); (3, 100%Q)]).
  simpl. lia.
Defined.

(** ** Heat map, in general (lines 193-199) *)

Lemma compare_pair_eq (x y : string * string) :
  compare_pair x y = Eq <-> x = y.
Proof.
  apply (lex_compare_eq String.compare String.compare string_compare_eq
           string_compare_eq).
Qed.

Lemma compare_pair_lt_trans (x y z : string * string) :
  compare_pair x y = Lt -> compare_pair y z = Lt -> compare_pair x z = Lt.
Proof.
  apply (lex_compare_lt_trans String.compare String.compare string_compare_eq
           string_compare_lt_trans string_compare_lt_trans).
Qed.

Lemma compare_pair_gt_lt (x y : string * string) :
  compare_pair x y = Gt -> compare_pair y x = Lt.
Proof.
  apply (lex_compare_gt_lt String.compare String.compare string_compare_eq
           string_compare_gt_lt string_compare_gt_lt).
Qed.

Lemma insert_key_In (k k' : string) (l : list string) :
  In k' (insert_key String.compare k l) <-> k' = k \/ In k' l.
Proof.
  induction l as [|h t IH]; simpl.
  - intuition.
  - destruct (String.compare k h) eqn:E; simpl.
    + apply string_compare_eq in E. subst h. intuition.
    + intuition.
    + rewrite IH. intuition.
Qed.

Lemma sorted_labels_In (l : list string) (k : string) :
  In k (sorted_labels String.compare l) <-> In k l.
Proof.
  unfold sorted_labels.
  assert (H : forall acc,
             In k (fold_left (fun a x => insert_key String.compare x a) l acc)
             <-> In k acc \/ In k l).
  { induction l as [|x l IH]; intros acc; simpl; [tauto|].
    rewrite IH, insert_key_In. intuition. }
  rewrite H. simpl. tauto.
Qed.

Lemma at_label_map {A : Type} (F : string -> A) (labels : list string)
  (w : string) :
  at_label w labels (map F labels)
  = if in_dec String.string_dec w labels then Some (F w) else None.
Proof.
  induction labels as [|i labels IH]; simpl; [reflexivity|].
  destruct (String.eqb_spec w i) as [-> | Hne].
  - destruct (String.string_dec i i); [reflexivity | congruence].
  - rewrite IH. destruct (String.string_dec i w); [congruence|].
    destruct (in_dec String.string_dec w labels); reflexivity.
Qed.

Lemma row_of_at_label (w : string) (idx : list string)
  (rows : list (list (option Q))) :
  row_of w idx rows = at_label w idx rows.
Proof.
  revert rows. induction idx as [|i idx IH]; intros [|r rows]; simpl; auto.
  destruct (String.eqb w i); auto.
Qed.

Lemma at_label_In {A : Type} (w : string) (labels : list string)
  (vals : list A) (v : A) :
  at_label w labels vals = Some v -> In v vals.
Proof.
  revert vals. induction labels as [|i labels IH]; intros [|x vals]; simpl;
    try discriminate.
  destruct (String.eqb w i).
  - intros H. injection H as ->. auto.
  - intros H. right. apply IH, H.
Qed.

Lemma lookup_absent {K : Type} (cmp : K -> K -> comparison)
  (cmp_eq : forall a b, cmp a b = Eq <-> a = b) (k : K) (l : list (K * Q)) :
  ~ In k (map fst l) -> lookup cmp k l = None.
Proof.
  induction l as [|[h v] rest IH]; simpl; intros Hn; [reflexivity|].
  destruct (cmp k h) eqn:E.
  - apply cmp_eq in E. subst h. tauto.
  - apply IH. tauto.
  - apply IH. tauto.
Qed.

Lemma has_key_weekday_month (w m : string) (r : Row) :
  has_key compare_pair weekday_month (w, m) r = on_weekday_month w m r.
Proof.
  unfold has_key, on_weekday_month, weekday_month, compare_pair, eq_label.
  destruct (weekday r) as [a|]; [|reflexivity].
  destruct (month r) as [b|]; simpl; [|apply eq_sym, andb_false_r].
  destruct (String.compare a w) eqn:E1.
  - apply string_compare_eq in E1. subst a. rewrite String.eqb_refl. simpl.
    destruct (String.compare b m) eqn:E2; symmetry.
    + apply String.eqb_eq, string_compare_eq, E2.
    + apply String.eqb_neq. intros ->. rewrite string_compare_refl in E2.
      discriminate.
    + apply String.eqb_neq. intros ->. rewrite string_compare_refl in E2.
      discriminate.
  - destruct (String.eqb_spec a w) as [-> | _]; [|reflexivity].
    rewrite string_compare_refl in E1. discriminate.
  - destruct (String.eqb_spec a w) as [-> | _]; [|reflexivity].
    rewrite string_compare_refl in E1. discriminate.
Qed.

Lemma pivot_lookup (df : list Row) (w m : string) :
  lookup compare_pair (w, m) (groupby_sum compare_pair weekday_month df)
  = cell_sum (map amount (filter (on_weekday_month w m) df)).
Proof.
  unfold groupby_sum.
  rewrite (group_fold_lookup compare_pair compare_pair_eq
             compare_pair_lt_trans compare_pair_gt_lt weekday_month df []
             (w, m)); [|constructor].
  simpl lookup.
  rewrite (filter_ext _ _ (has_key_weekday_month w m)).
  destruct (map amount (filter (on_weekday_month w m) df)); reflexivity.
Qed.

Lemma heatmap_cell (df : list Row) (w m : string) :
  In w weekday_names ->
  table_cell (heatmap df) w m
  = cell_sum (map amount (filter (on_weekday_month w m) df)).
Proof.
  intros Hw. rewrite <- pivot_lookup.
  unfold table_cell, heatmap, reindex, pivot_table.
  cbn [index columns cells].
  set (g := groupby_sum compare_pair weekday_month df).
  set (idx := sorted_labels String.compare (map (fun e => fst (fst e)) g)).
  set (cols := sorted_labels String.compare (map (fun e => snd (fst e)) g)).
  rewrite row_of_at_label, at_label_map.
  destruct (in_dec String.string_dec w weekday_names) as [_|]; [|tauto].
  rewrite row_of_at_label, at_label_map.
  destruct (in_dec String.string_dec w idx) as [Hi | Hi].
  - rewrite at_label_map.
    destruct (in_dec String.string_dec m cols) as [Hc | Hc]; [reflexivity|].
    symmetry. apply (lookup_absent compare_pair compare_pair_eq).
    intros Hk. apply Hc. unfold cols. apply sorted_labels_In.
    apply in_map_iff in Hk. destruct Hk as (e & Ee & He).
    apply in_map_iff. exists e. rewrite Ee. auto.
  - assert (Hl : lookup compare_pair (w, m) g = None).
    { apply (lookup_absent compare_pair compare_pair_eq).
      intros Hk. apply Hi. unfold idx. apply sorted_labels_In.
      apply in_map_iff in Hk. destruct Hk as (e & Ee & He).
      apply in_map_iff. exists e. rewrite Ee. auto. }
    rewrite Hl, at_label_map.
    destruct (in_dec String.string_dec m cols); reflexivity.
Qed.

Lemma all_null_cell (t : Table) (w m : string) :
  all_null t = true -> table_cell t w m = None.
Proof.
  unfold all_null, table_cell. intros H.
  destruct (row_of w (index t) (cells t)) as [row|] eqn:Er; [|reflexivity].
  rewrite row_of_at_label in Er. apply at_label_In in Er.
  destruct (at_label m (columns t) row) as [c|] eqn:Ec; [|reflexivity].
  apply at_label_In in Ec. rewrite forallb_forall in H.
  specialize (H row Er). rewrite forallb_forall in H. specialize (H c Ec).
  destruct c; [discriminate | reflexivity].
Qed.

(** X18: the heat map in general.  It has the seven weekdays from Monday to
    Sunday as rows, every row has one cell per column, a month is a column
    exactly when some row of the frame has that month and a weekday, and the
    cell of a weekday and a month is null when no record falls on them and
    otherwise the sum of the amounts of the records that do. *)
Theorem heatmap_cells (df : list Row) :
  index (heatmap df) = weekday_names
  /\ List.length (cells (heatmap df)) = 7%nat
  /\ Forall (fun row => List.length row
                        = List.length (columns (heatmap df)))
       (cells (heatmap df))
  /\ (forall m, In m (columns (heatmap df))
                <-> exists r w, In r df /\ weekday r = Some w
                                /\ month r = Some m)
  /\ (forall w m, In w weekday_names ->
        table_cell (heatmap df) w m
        = cell_sum (map amount (filter (on_weekday_month w m) df))).
Proof.
  split; [reflexivity | split; [reflexivity | split; [| split]]].
  - unfold heatmap, reindex, pivot_table. cbn [cells columns index].
    apply Forall_forall. intros row Hrow. apply in_map_iff in Hrow.
    destruct Hrow as (w & <- & _).
    destruct (row_of w _ _) as [r|] eqn:Er; [|apply length_map].
    rewrite row_of_at_label in Er. apply at_label_In, in_map_iff in Er.
    destruct Er as (w' & <- & _). apply length_map.
  - intros m. unfold heatmap, reindex, pivot_table. cbn [columns].
    rewrite sorted_labels_In, in_map_iff. split.
    + intros ([[w' m'] v] & Em & He). simpl in Em. subst m'.
      assert (Hk : In (w', m)
                     (map fst (groupby_sum compare_pair weekday_month df))).
      { change (w', m) with (fst (w', m, v)). apply in_map, He. }
      apply (groupby_sum_keys compare_pair compare_pair_eq) in Hk.
      apply in_map_iff in Hk. destruct Hk as (r & Hr & Hin).
      exists r, w'. split; [exact Hin|]. unfold weekday_month in Hr.
      destruct (weekday r); [|discriminate].
      destruct (month r); [|discriminate]. injection Hr as -> ->. auto.
    + intros (r & w & Hin & Hw & Hm).
      assert (Hk : In (w, m)
                     (map fst (groupby_sum compare_pair weekday_month df))).
      { apply (groupby_sum_keys compare_pair compare_pair_eq).
        apply in_map_iff. exists r. split; [|exact Hin].
        unfold weekday_month. rewrite Hw, Hm. reflexivity. }
      apply in_map_iff in Hk. destruct Hk as (e & Ee & He).
      exists e. rewrite Ee. auto.
  - intros w m Hw. apply heatmap_cell, Hw.
Qed.

Lemma heatmap_cells_witness :
  table_cell (heatmap (normalize raw_three)) "Tuesday" "January"
  = cell_sum (map amount
                (filter (on_weekday_month "Tuesday" "January")
                   (normalize raw_three))).
Proof.
  destruct (heatmap_cells (normalize raw_three)) as (_ & _ & _ & _ & H).
  apply H. right. left. reflexivity.
Defined.

(** X19: on a frame that passed the filters the heat map always has a cell
    that is not null, so the message of line 195 is not shown and the image
    of line 197 is built. *)
Theorem heatmap_shown_after_filters (raw : list RawRow) (f : FilterSpec)
  (d : list Row) :
  filtered (normalize raw) f = Ran d ->
  all_null (heatmap d) = false
  /\ heatmap_view d = HeatmapImage (fillna 0 (heatmap d)).
Proof.
  intros H. destruct (filtered_rows_dated _ _ _ H) as (Ed & Hne & Hd).
  assert (Ha : all_null (heatmap d) = false).
  { destruct d as [|r rest]; [congruence|].
    assert (Hr : In r (r :: rest)) by (left; reflexivity).
    pose proof Hr as Hr'. rewrite Ed in Hr'.
    apply filtered_rows_derived in Hr'. destruct Hr' as [Hw Hm].
    destruct (date r) as [t|] eqn:Ht; [|exfalso; apply (Hd r Hr); exact Ht].
    simpl in Hw, Hm.
    destruct (all_null (heatmap (r :: rest))) eqn:E; [|reflexivity].
    exfalso.
    pose proof (all_null_cell _ (day_name t) (month_name t) E) as Hc.
    rewrite heatmap_cell in Hc by apply day_name_in_weekday_names.
    cbn [filter] in Hc. unfold on_weekday_month in Hc at 1.
    rewrite Hw, Hm in Hc. simpl eq_label in Hc.
    rewrite !String.eqb_refl in Hc. simpl in Hc. discriminate. }
  split; [exact Ha|]. unfold heatmap_view. rewrite Ha. reflexivity.
Qed.

Lemma heatmap_shown_after_filters_witness :
  all_null (heatmap (normalize raw_three)) = false.
Proof.
  apply (heatmap_shown_after_filters raw_three
           {| start_date := Some (ymd 2024 1 1);
              end_date := Some (ymd 2024 1 2);
              selected_types := []; user_search := None |}
           (normalize raw_three)).
  reflexivity.
Defined.

(** ** Shape of the normalized frame (lines 48-78) *)

Lemma filter_nothing {A : Type} (p : A -> bool) (l : list A) :
  (forall x, In x l -> p x = false) -> filter p l = [].
Proof.
  induction l as [|x l IH]; simpl; intros H; [reflexivity|].
  rewrite (H x (or_introl eq_refl)). apply IH.
  intros y Hy. apply H. right. exact Hy.
Qed.

Lemma sorted_nulls_last (l : list Row) :
  StronglySorted date_order l ->
  l = filter (fun r => negb (isnull (date r))) l
      ++ filter (fun r => isnull (date r)) l.
Proof.
  induction 1 as [|a l Hs IH Hall]; simpl; [reflexivity|].
  destruct (date a) as [t|] eqn:Ea; simpl.
  - f_equal. exact IH.
  - assert (Hn : forall x, In x l -> isnull (date x) = true).
    { intros x Hx. rewrite Forall_forall in Hall. specialize (Hall x Hx).
      unfold date_order in Hall. rewrite Ea in Hall.
      destruct (date x); [discriminate | reflexivity]. }
    rewrite (filter_all _ l Hn). rewrite filter_nothing; [reflexivity|].
    intros x Hx. rewrite (Hn x Hx). reflexivity.
Qed.

Lemma sorted_head_is_min (r : Row) (rest : list Row) :
  StronglySorted date_order (r :: rest) -> date r = min_date (r :: rest).
Proof.
  intros Hs. inversion Hs as [|? ? _ Hall]; subst.
  rewrite Forall_forall in Hall.
  destruct (date r) as [t|] eqn:Er.
  - destruct (min_date_le (r :: rest) r t (or_introl eq_refl) Er)
      as (lo & Elo & Hle).
    rewrite Elo. f_equal.
    apply min_date_attained, in_map_iff in Elo.
    destruct Elo as (x & Ex & [<- | Hx]); [congruence|].
    specialize (Hall x Hx). unfold date_order in Hall.
    rewrite Er, Ex in Hall. simpl in Hall. apply Z.leb_le in Hall. lia.
  - symmetry. apply min_date_none. intros x [<- | Hx]; [exact Er|].
    specialize (Hall x Hx). unfold date_order in Hall. rewrite Er in Hall.
    destruct (date x); [discriminate | reflexivity].
Qed.

(** X20: the normalized frame has its dated rows first and the rows with a
    null date last; its first row carries the earliest date, which is
    [min_date]; the weekday and the month of a row are those of its date,
    null when the date is null, and the weekday is one of the seven names of
    the heat map index. *)
Theorem normalized_frame_shape (raw : list RawRow) :
  normalize raw
  = filter (fun r => negb (isnull (date r))) (normalize raw)
    ++ filter (fun r => isnull (date r)) (normalize raw)
  /\ option_map date (hd_error (normalize raw))
     = match normalize raw with
       | [] => None
       | _ :: _ => Some (min_date (normalize raw))
       end
  /\ (forall r, In r (normalize raw) ->
        weekday r = option_map day_name (date r)
        /\ month r = option_map month_name (date r)
        /\ forall w, weekday r = Some w -> In w weekday_names).
Proof.
  assert (Hs : StronglySorted date_order (normalize raw)).
  { apply sorted_strongly, map_add_derived_sorted, sort_values_date_sorted. }
  split; [apply sorted_nulls_last, Hs | split].
  - destruct (normalize raw) as [|r rest]; [reflexivity|].
    simpl. f_equal. apply sorted_head_is_min, Hs.
  - intros r Hr. unfold normalize in Hr. apply in_map_iff in Hr.
    destruct Hr as (r0 & <- & _). simpl.
    split; [reflexivity | split; [reflexivity|]].
    intros w Hw. destruct (date r0) as [t|]; [|discriminate].
    simpl in Hw. injection Hw as <-. apply day_name_in_weekday_names.
Qed.

Lemma normalized_frame_shape_witness :
  weekday (add_derived (coerce_row
             (raw_row (Parsed (ymd 2024 1 2)) (Parsed 10%Q)
                (Some "travel"%string))))
  = Some (day_name (ymd 2024 1 2)).
Proof.
  destruct (normalized_frame_shape raw_three) as (_ & _ & H).
  apply (H (add_derived (coerce_row
              (raw_row (Parsed (ymd 2024 1 2)) (Parsed 10%Q)
                 (Some "travel"%string))))).
  right. right. left. reflexivity.
Defined.

Lemma has_column_In (columns : list string) (c : string) :
  has_column columns c = true <-> In c columns.
Proof. apply existsb_eqb_In. Qed.

(** X21: the column check.  The list of missing columns holds exactly the
    expected columns the file does not have.  The script stops when [date] is
    missing, stops when [date] is there and [amount] is missing, and goes on
    to normalize the rows otherwise, whether or not [user_id],
    [expense_type] or [vendor] are missing. *)
Theorem column_check (columns : list string) (raw : list RawRow) :
  (forall c, In c (missing columns) <-> In c expected_cols /\ ~ In c columns)
  /\ (In "date"%string (missing columns)
      <-> load_file columns raw = Stopped MissingDateColumn)
  /\ (~ In "date"%string (missing columns)
      /\ In "amount"%string (missing columns)
      <-> load_file columns raw = Stopped MissingAmountColumn)
  /\ (~ In "date"%string (missing columns)
      /\ ~ In "amount"%string (missing columns)
      <-> load_file columns raw = Ran (normalize raw)).
Proof.
  assert (Hm : forall c, In c (missing columns)
                         <-> In c expected_cols /\ ~ In c columns).
  { intros c. unfold missing. rewrite filter_In, negb_true_iff.
    split; intros [H1 H2]; (split; [exact H1|]).
    - intros Hin. apply has_column_In in Hin. congruence.
    - destruct (has_column columns c) eqn:E; [|reflexivity].
      apply has_column_In in E. contradiction. }
  assert (Hd : In "date"%string expected_cols) by (simpl; tauto).
  assert (Ha : In "amount"%string expected_cols) by (simpl; tauto).
  split; [exact Hm|]. rewrite !Hm. unfold load_file, load.
  pose proof (has_column_In columns "date") as H1.
  pose proof (has_column_In columns "amount") as H2.
  destruct (has_column columns "date"), (has_column columns "amount");
    simpl; repeat split; try discriminate; try tauto;
    try (intros; exfalso; intuition congruence);
    try (intuition congruence).
Qed.
